(** * Student API with an Ollama summary endpoint: record store and stream aggregation

    A shallow embedding of [src/main.go] (and of the older copy of the same
    program, [src/unnamed/part_000]) together with the properties of the
    in-memory record store and of the streamed-summary loop.

    Conventions.
    - Go's [int] is modelled by [Z].  The only arithmetic the program does on
      an [int] is [len(students) + 1]; see [len_plus_one_no_wrap].
    - The global [students] map is a [gmap Z Student] that every handler
      receives and returns.  Each handler touches the map only between
      [mutex.Lock()] and [mutex.Unlock()], so one handler call is one atomic
      step on the map, and a run of the server is a sequence of such steps.
    - A handler reads an [http.Request] and writes to an
      [http.ResponseWriter]; here it is a function from a [Request] to a
      [Reply].
    - Library calls whose result depends on bytes outside the program
      ([json.Decoder.Decode] on the request body, [json.Unmarshal] on a line
      of the upstream body, [http.Client.Do]) are inputs of the model. *)

From Stdlib Require Import ZArith QArith String Ascii.
From stdpp Require Import base gmap strings list pretty.
From Equations Require Import Equations.

Local Open Scope string_scope.
Local Open Scope Z_scope.

(** ** Go library: [int], [strconv.Atoi], [net/http] status codes *)

Module Go.

Definition MinInt : Z := - 2 ^ 63.
Definition MaxInt : Z := 2 ^ 63 - 1.

Definition is_int (z : Z) : bool := (MinInt <=? z) && (z <=? MaxInt).

(** Two's complement wrap-around of a 64-bit signed addition result. *)
Definition wrap (z : Z) : Z := (z - MinInt) mod 2 ^ 64 + MinInt.

Definition digit (a : ascii) : option Z :=
  let n := Z.of_N (N_of_ascii a) in
  if (48 <=? n) && (n <=? 57) then Some (n - 48) else None.

Fixpoint digits (acc : Z) (s : string) : option Z :=
  match s with
  | EmptyString => Some acc
  | String a s' =>
      match digit a with
      | Some d => digits (acc * 10 + d) s'
      | None => None
      end
  end.

(** [strconv.Atoi]: an optional sign, then one or more decimal digits; a
    value outside of [int] is a range error.  [None] stands for [err != nil]. *)
Definition Atoi (s : string) : option Z :=
  let '(neg, ds) :=
    match s with
    | String "-"%char r => (true, r)
    | String "+"%char r => (false, r)
    | _ => (false, s)
    end in
  match ds with
  | EmptyString => None
  | _ =>
      match digits 0 ds with
      | Some n => let v := if neg then - n else n in
                  if is_int v then Some v else None
      | None => None
      end
  end.

(** [bufio.MaxScanTokenSize], the size the buffer of a scanner made by
    [bufio.NewScanner] can grow to, and the error of a line that does not
    fit in it with its newline. *)
Definition MaxScanTokenSize : Z := 64 * 1024.
Definition ErrTooLong : string := "bufio.Scanner: token too long".

(** [dropCR] of [bufio.ScanLines]: a carriage return at the end is dropped. *)
Fixpoint dropCR (data : string) : string :=
  match data with
  | EmptyString => EmptyString
  | String a EmptyString =>
      if Ascii.eqb a (ascii_of_N 13) then EmptyString else data
  | String a rest => String a (dropCR rest)
  end.

Definition StatusOK : Z := 200.
Definition StatusCreated : Z := 201.
Definition StatusNoContent : Z := 204.
Definition StatusBadRequest : Z := 400.
Definition StatusNotFound : Z := 404.
Definition StatusInternalServerError : Z := 500.

End Go.

(** ** Data model *)

(** [type Student struct { ID int; Name string; Age int; Email string }] *)
Record Student : Type := mkStudent {
  ID : Z;
  Name : string;
  Age : Z;
  Email : string
}.

Global Instance Student_eq_dec : EqDecision Student.
Proof. solve_decision. Defined.

(** [student.ID = id] on a local copy of the struct. *)
Definition with_ID (s : Student) (id : Z) : Student :=
  {| ID := id; Name := Name s; Age := Age s; Email := Email s |}.

(** What a handler wrote to its [http.ResponseWriter]. *)
Inductive Payload : Type :=
| Text (msg : string)                (* http.Error / Fprintln: a text line *)
| JsonStudent (s : Student)          (* Encode(student) *)
| JsonStudents (l : list Student)    (* Encode(list) *)
| JsonSummary (summary : string)     (* Encode(map[string]string{"summary": ..}) *)
| NoContent.

Record Reply : Type := mkReply {
  status : Z;
  payload : Payload
}.

(** [http.Error(w, msg, code)] *)
Definition http_Error (msg : string) (code : Z) : Reply :=
  {| status := code; payload := Text msg |}.

(** The part of an [*http.Request] the handlers look at. *)
Record Request : Type := mkRequest {
  vars_id : string;            (* mux.Vars(r)["id"] *)
  decoded : option Student     (* json.NewDecoder(r.Body).Decode(&student); None: err != nil *)
}.

(** [len(students)] *)
Definition len (students : gmap Z Student) : Z := Z.of_nat (size students).

(** The field checks shared by create and update:
    [Name == "" || Email == "" || Age <= 0]. *)
Definition invalid (s : Student) : bool :=
  String.eqb (Name s) "" || String.eqb (Email s) "" || (Age s <=? 0).

(** ** Handlers of [src/main.go] *)

Definition createStudent (r : Request) (students : gmap Z Student)
  : gmap Z Student * Reply :=
  match decoded r with
  | None => (students, http_Error "Invalid student data" Go.StatusBadRequest)
  | Some student =>
      if invalid student
      then (students, http_Error "Invalid student data" Go.StatusBadRequest)
      else
        let student := with_ID student (len students + 1) in
        (<[ID student := student]> students,
         {| status := Go.StatusCreated; payload := JsonStudent student |})
  end.

(** [for _, s := range students { list = append(list, s) }]; Go leaves the
    iteration order of a map unspecified, here it is the order of
    [map_to_list]. *)
Definition getStudents (r : Request) (students : gmap Z Student)
  : gmap Z Student * Reply :=
  (students,
   {| status := Go.StatusOK; payload := JsonStudents (map_to_list students).*2 |}).

Definition getStudent (r : Request) (students : gmap Z Student)
  : gmap Z Student * Reply :=
  match Go.Atoi (vars_id r) with
  | None => (students, http_Error "Invalid student ID" Go.StatusBadRequest)
  | Some id =>
      match students !! id with
      | None => (students, http_Error "Student not found" Go.StatusNotFound)
      | Some student =>
          (students, {| status := Go.StatusOK; payload := JsonStudent student |})
      end
  end.

Definition updateStudent (r : Request) (students : gmap Z Student)
  : gmap Z Student * Reply :=
  match Go.Atoi (vars_id r) with
  | None => (students, http_Error "Invalid student ID" Go.StatusBadRequest)
  | Some id =>
      match decoded r with
      | None => (students, http_Error "Invalid student data" Go.StatusBadRequest)
      | Some updated =>
          if invalid updated
          then (students, http_Error "Invalid student data" Go.StatusBadRequest)
          else
            match students !! id with
            | None => (students, http_Error "Student not found" Go.StatusNotFound)
            | Some _ =>
                let updated := with_ID updated id in
                (<[id := updated]> students,
                 {| status := Go.StatusOK; payload := JsonStudent updated |})
            end
      end
  end.

Definition deleteStudent (r : Request) (students : gmap Z Student)
  : gmap Z Student * Reply :=
  match Go.Atoi (vars_id r) with
  | None => (students, http_Error "Invalid student ID" Go.StatusBadRequest)
  | Some id =>
      match students !! id with
      | None => (students, http_Error "Student not found" Go.StatusNotFound)
      | Some _ =>
          (delete id students,
           {| status := Go.StatusNoContent; payload := NoContent |})
      end
  end.


(** ** The upstream call: [bufio.Scanner] over the response body *)

(** [map[string]interface{}] values of the request body. *)
Inductive JsonValue : Type :=
| JString (s : string)
| JFloat (q : Q)
| JInt (z : Z).

(** What the scanner gets out of [resp.Body], in order: a line, given by
    its bytes up to its newline (or up to the end of the body for a last
    line without one), or a failed [Read] (any error other than [io.EOF]).
    Lines that follow a failed read are data that arrived together with the
    error: the scanner still hands them out, with the error already
    recorded.  The end of the list is [io.EOF]. *)
Inductive Read : Type :=
| Line (text : string)
| Fail (e : string).

(** [*http.Response] *)
Record HttpResponse : Type := mkHttpResponse {
  StatusCode : Z;
  Body : list Read
}.

(** [client.Do(req)] returns [(resp, err)]. *)
Inductive DoResult : Type :=
| DoError (e : string)
| DoResponse (resp : HttpResponse).

(** [bufio.Scanner]: what is left of the body, and the first error met so
    far, a failed read or a line that is too long ([scanner.Err()]). *)
Record Scanner : Type := mkScanner {
  pending : list Read;
  err : option string
}.

Definition NewScanner (body : list Read) : Scanner :=
  {| pending := body; err := None |}.

(** [setErr]: the first error is kept. *)
Definition setErr (old : option string) (e : string) : option string :=
  match old with
  | None => Some e
  | Some _ => old
  end.

(** A line of [MaxScanTokenSize] bytes or more does not fit in the buffer
    with its newline.  [bufio.NewScanner] is used as it is, without a call of
    [Buffer]. *)
Definition too_long (line : string) : bool :=
  Go.MaxScanTokenSize <=? Z.of_nat (String.length line).

(** The scanner gives up on a line that is too long when it has to read on
    to find the end of the line; once a read has failed it reads no more and
    hands out what it holds. *)
Definition blocked (e : option string) (line : string) : bool :=
  match e with
  | None => too_long line
  | Some _ => false
  end.

Fixpoint scan (rs : list Read) (e : option string) : option string * Scanner :=
  match rs with
  | [] => (None, {| pending := []; err := e |})
  | Line l :: rs' =>
      if blocked e l
      then (None, {| pending := Line l :: rs'; err := Some Go.ErrTooLong |})
      else (Some (Go.dropCR l), {| pending := rs'; err := e |})
  | Fail x :: rs' => scan rs' (setErr e x)
  end.

(** [scanner.Scan()] together with [scanner.Text()]: [Some line] when [Scan]
    returns true, with the line as [Text] gives it (without newline and
    carriage return), [None] when it returns false. *)
Definition Scan (scanner : Scanner) : option string * Scanner :=
  scan (pending scanner) (err scanner).

(** [scanner.Err()] *)
Definition Err (scanner : Scanner) : option string := err scanner.

(** The anonymous [chunk] struct the loop decodes each line into. *)
Record Chunk : Type := mkChunk {
  Response : string;
  Done : bool
}.

Lemma scan_pending rs e line scanner' :
  scan rs e = (Some line, scanner') →
  (length (pending scanner') < length rs)%nat.
Proof.
  revert e. induction rs as [|[l|x] rs IH]; intros e H; simpl in *.
  - discriminate.
  - destruct (blocked e l); [discriminate|].
    injection H as _ <-. simpl. lia.
  - apply IH in H. lia.
Qed.

Lemma Scan_pending scanner line scanner' :
  Scan scanner = (Some line, scanner') →
  (length (pending scanner') < length (pending scanner))%nat.
Proof. apply scan_pending. Qed.

(** Keeps the equation [x = y] when matching on [x]. *)
Definition inspect {A : Type} (x : A) : { y : A | x = y } := exist _ x eq_refl.

(** ** [getStudentSummary] of [src/main.go] *)

(** [fmt.Sprintf("Summarize this student profile: Name: %s, Age: %d, Email: %s", ..)] *)
Definition prompt (student : Student) : string :=
  "Summarize this student profile: Name: " +:+ Name student
  +:+ ", Age: " +:+ pretty (Age student)
  +:+ ", Email: " +:+ Email student.

(** The [requestBody] map literal.  [json.Marshal] cannot fail on it and
    [http.NewRequest] cannot fail on a constant method and URL, so the two
    [err != nil] branches that follow them in the source are dead and the
    request is identified with this map. *)
Definition requestBody (student : Student) : list (string * JsonValue) :=
  [ ("model", JString "llama3");
    ("prompt", JString (prompt student));
    ("temperature", JFloat (3 # 10));
    ("top_p", JFloat (9 # 10));
    ("max_tokens", JInt 50) ].

Section Summary.

(** [json.Unmarshal([]byte(line), &chunk)]: [None] stands for [err != nil]. *)
Variable Unmarshal : string → option Chunk.

(** [client.Do(req)], as a function of the JSON request body. *)
Variable Do : list (string * JsonValue) → DoResult.

(** The [for scanner.Scan() { ... }] loop.  The result is [None] when the
    handler returned from inside the loop (a line did not decode), and
    [Some fullResponse] when the loop was left by [break] or because [Scan]
    returned false; the scanner is returned as the loop left it. *)
Equations? scan_loop (scanner : Scanner) (fullResponse : string)
  : option string * Scanner by wf (length (pending scanner)) lt :=
  scan_loop scanner fullResponse with inspect (Scan scanner) := {
    | exist _ (None, scanner') _ => (Some fullResponse, scanner');
    | exist _ (Some line, scanner') _ with Unmarshal line => {
        | None => (None, scanner');
        | Some chunk =>
            if Done chunk
            then (Some (fullResponse +:+ Response chunk), scanner')
            else scan_loop scanner' (fullResponse +:+ Response chunk) } }.
Proof. eapply Scan_pending; eassumption. Qed.


(** The handler.  Besides what it writes to [w], the result tells what
    happened to [resp.Body]: [None] when no scanner was ever made for it,
    [Some scanner] with the scanner as the handler left it otherwise. *)
Definition getStudentSummary (r : Request) (students : gmap Z Student)
  : Reply * option Scanner :=
  match Go.Atoi (vars_id r) with
  | None => (http_Error "Invalid student ID" Go.StatusBadRequest, None)
  | Some id =>
      match students !! id with
      | None => (http_Error "Student not found" Go.StatusNotFound, None)
      | Some student =>
          match Do (requestBody student) with
          | DoError e =>
              (http_Error ("Failed to call Ollama API: " +:+ e)
                 Go.StatusInternalServerError, None)
          | DoResponse resp =>
              if negb (StatusCode resp =? Go.StatusOK)
              then
                (http_Error ("Ollama returned status " +:+ pretty (StatusCode resp))
                   Go.StatusInternalServerError, None)
              else
                match scan_loop (NewScanner (Body resp)) EmptyString with
                | (None, scanner) =>
                    (http_Error "Failed to parse Ollama response chunk"
                       Go.StatusInternalServerError, Some scanner)
                | (Some fullResponse, scanner) =>
                    match Err scanner with
                    | Some _ =>
                        (http_Error "Error reading Ollama response stream"
                           Go.StatusInternalServerError, Some scanner)
                    | None =>
                        ({| status := Go.StatusOK;
                            payload := JsonSummary fullResponse |}, Some scanner)
                    end
                end
          end
      end
  end.

End Summary.

(** ** The older copy of the program, [src/unnamed/part_000]

    [getStudents], [getStudent] and [deleteStudent] have the same text in
    both files and are the definitions above.  [createStudent] and
    [updateStudent] answer an undecodable body with another message, and
    [getStudentSummary] sends another prompt through [http.Post] and does
    not look at the status code of the answer. *)

Module Part000.

Definition createStudent (r : Request) (students : gmap Z Student)
  : gmap Z Student * Reply :=
  match decoded r with
  | None => (students, http_Error "Invalid input" Go.StatusBadRequest)
  | Some student =>
      if invalid student
      then (students, http_Error "Invalid student data" Go.StatusBadRequest)
      else
        let student := with_ID student (len students + 1) in
        (<[ID student := student]> students,
         {| status := Go.StatusCreated; payload := JsonStudent student |})
  end.

Definition updateStudent (r : Request) (students : gmap Z Student)
  : gmap Z Student * Reply :=
  match Go.Atoi (vars_id r) with
  | None => (students, http_Error "Invalid student ID" Go.StatusBadRequest)
  | Some id =>
      match decoded r with
      | None => (students, http_Error "Invalid input" Go.StatusBadRequest)
      | Some updated =>
          if invalid updated
          then (students, http_Error "Invalid student data" Go.StatusBadRequest)
          else
            match students !! id with
            | None => (students, http_Error "Student not found" Go.StatusNotFound)
            | Some _ =>
                let updated := with_ID updated id in
                (<[id := updated]> students,
                 {| status := Go.StatusOK; payload := JsonStudent updated |})
            end
      end
  end.

(** [fmt.Sprintf("Provide a concise summary of the student profile:\nName: %s\nAge: %d\nEmail: %s\n", ..)] *)
Definition prompt (student : Student) : string :=
  let nl := String (ascii_of_N 10) EmptyString in
  "Provide a concise summary of the student profile:" +:+ nl
  +:+ "Name: " +:+ Name student +:+ nl
  +:+ "Age: " +:+ pretty (Age student) +:+ nl
  +:+ "Email: " +:+ Email student +:+ nl.

Definition requestBody (student : Student) : list (string * JsonValue) :=
  [ ("model", JString "llama3"); ("prompt", JString (prompt student)) ].

Definition getStudentSummary
    (Unmarshal : string → option Chunk)
    (Post : list (string * JsonValue) → DoResult)
    (r : Request) (students : gmap Z Student) : Reply * option Scanner :=
  match Go.Atoi (vars_id r) with
  | None => (http_Error "Invalid student ID" Go.StatusBadRequest, None)
  | Some id =>
      match students !! id with
      | None => (http_Error "Student not found" Go.StatusNotFound, None)
      | Some student =>
          match Post (requestBody student) with
          | DoError _ =>
              (http_Error "Failed to call Ollama API"
                 Go.StatusInternalServerError, None)
          | DoResponse resp =>
              match scan_loop Unmarshal (NewScanner (Body resp)) EmptyString with
              | (None, scanner) =>
                  (http_Error "Failed to parse Ollama response chunk"
                     Go.StatusInternalServerError, Some scanner)
              | (Some fullResponse, scanner) =>
                  match Err scanner with
                  | Some _ =>
                      (http_Error "Error reading Ollama response stream"
                         Go.StatusInternalServerError, Some scanner)
                  | None =>
                      ({| status := Go.StatusOK;
                          payload := JsonSummary fullResponse |}, Some scanner)
                  end
              end
          end
      end
  end.

End Part000.

(** ** A decoder for the lines of the upstream protocol

    The properties below are stated for every [Unmarshal].  To run the
    handlers on concrete bodies, [Wire.Unmarshal] decodes the lines the
    protocol is made of: one JSON object whose members are
    ["response"] with a string without escapes and ["done"] with a boolean,
    in any order, with optional white space.  Everything else is rejected. *)

Module Wire.

Definition dquote : ascii := ascii_of_N 34.
Definition backslash : ascii := ascii_of_N 92.

(** Writes a line with ['] where the JSON text has a double quote. *)
Fixpoint json (s : string) : string :=
  match s with
  | EmptyString => EmptyString
  | String a s' => String (if Ascii.eqb a "'" then dquote else a) (json s')
  end.

Definition is_space (a : ascii) : bool :=
  let n := N_of_ascii a in
  (n =? 32)%N || (n =? 9)%N || (n =? 10)%N || (n =? 13)%N.

Fixpoint skip_space (s : string) : string :=
  match s with
  | String a s' => if is_space a then skip_space s' else s
  | EmptyString => s
  end.

(** The characters up to the closing quote, and what follows it. *)
Fixpoint quoted (s : string) : option (string * string) :=
  match s with
  | EmptyString => None
  | String a s' =>
      if Ascii.eqb a dquote then Some (EmptyString, s')
      else if Ascii.eqb a backslash || (N_of_ascii a <? 32)%N then None
      else
        match quoted s' with
        | Some (text, rest) => Some (String a text, rest)
        | None => None
        end
  end.

Fixpoint strip (word s : string) : option string :=
  match word, s with
  | EmptyString, _ => Some s
  | String a word', String b s' => if Ascii.eqb a b then strip word' s' else None
  | String _ _, EmptyString => None
  end.

Inductive Value : Type :=
| VString (s : string)
| VBool (b : bool).

Definition value (s : string) : option (Value * string) :=
  match s with
  | String a s' =>
      if Ascii.eqb a dquote
      then match quoted s' with
           | Some (text, rest) => Some (VString text, rest)
           | None => None
           end
      else match strip "true" s, strip "false" s with
           | Some rest, _ => Some (VBool true, rest)
           | None, Some rest => Some (VBool false, rest)
           | None, None => None
           end
  | EmptyString => None
  end.

Definition assign (key : string) (v : Value) (chunk : Chunk) : option Chunk :=
  match v with
  | VString text =>
      if String.eqb key "response"
      then Some {| Response := text; Done := Done chunk |} else None
  | VBool b =>
      if String.eqb key "done"
      then Some {| Response := Response chunk; Done := b |} else None
  end.

(** The members of the object, from the first key to the closing brace. *)
Fixpoint members (fuel : nat) (s : string) (chunk : Chunk) : option Chunk :=
  match fuel with
  | O => None
  | S fuel' =>
      match skip_space s with
      | String a s1 =>
          if negb (Ascii.eqb a dquote) then None else
          match quoted s1 with
          | None => None
          | Some (key, s2) =>
              match skip_space s2 with
              | String ":" s3 =>
                  match value (skip_space s3) with
                  | None => None
                  | Some (v, s4) =>
                      match assign key v chunk with
                      | None => None
                      | Some chunk' =>
                          match skip_space s4 with
                          | String "," s5 => members fuel' s5 chunk'
                          | String "}" s5 =>
                              match skip_space s5 with
                              | EmptyString => Some chunk'
                              | _ => None
                              end
                          | _ => None
                          end
                      end
                  end
              | _ => None
              end
          end
      | EmptyString => None
      end
  end.

Definition Unmarshal (line : string) : option Chunk :=
  let zero := {| Response := EmptyString; Done := false |} in
  match skip_space line with
  | String "{" s1 =>
      match skip_space s1 with
      | String "}" s2 =>
          match skip_space s2 with
          | EmptyString => Some zero
          | _ => None
          end
      | _ => members (String.length line) s1 zero
      end
  | _ => None
  end.

End Wire.


(** ** Runs of the server and the vocabulary of the specification *)

(** The five routes onto the record store. *)
Inductive Route : Type := Create | List | Get | Update | Delete.

Definition handle (route : Route) (r : Request) (students : gmap Z Student)
  : gmap Z Student * Reply :=
  match route with
  | Create => createStudent r students
  | List => getStudents r students
  | Get => getStudent r students
  | Update => updateStudent r students
  | Delete => deleteStudent r students
  end.

(** The maps the server can hold: [make(map[int]Student)] at start, then one
    handler call after the other ([getStudentSummary] only reads the map). *)
Inductive reachable : gmap Z Student → Prop :=
| reachable_start : reachable ∅
| reachable_step route r students :
    reachable students → reachable (handle route r students).1.

(** The error replies, under the names the specification gives them. *)
Definition ValidationError : Reply :=
  http_Error "Invalid student data" Go.StatusBadRequest.
Definition NotFoundError : Reply :=
  http_Error "Student not found" Go.StatusNotFound.
Definition UpstreamStatusError (code : Z) : Reply :=
  http_Error ("Ollama returned status " +:+ pretty code) Go.StatusInternalServerError.
Definition StreamDecodeError : Reply :=
  http_Error "Failed to parse Ollama response chunk" Go.StatusInternalServerError.
Definition StreamReadError : Reply :=
  http_Error "Error reading Ollama response stream" Go.StatusInternalServerError.

(** The successful replies. *)
Definition created (student : Student) : Reply :=
  {| status := Go.StatusCreated; payload := JsonStudent student |}.
Definition ok (student : Student) : Reply :=
  {| status := Go.StatusOK; payload := JsonStudent student |}.
Definition deleted : Reply :=
  {| status := Go.StatusNoContent; payload := NoContent |}.
Definition summary (text : string) : Reply :=
  {| status := Go.StatusOK; payload := JsonSummary text |}.

(** The constraints of the data model on the entry stored under key [k]. *)
Definition well_formed (k : Z) (e : Student) : Prop :=
  0 < ID e ∧ ID e = k ∧ Name e ≠ EmptyString ∧ Email e ≠ EmptyString ∧ 0 < Age e.

(** The invariant of the store: every entry is well formed under its key,
    and no two entries carry the same id. *)
Definition store_inv (students : gmap Z Student) : Prop :=
  map_Forall well_formed students ∧
  ∀ k1 k2 e1 e2,
    students !! k1 = Some e1 → students !! k2 = Some e2 →
    ID e1 = ID e2 → k1 = k2.

(** The lines of a body, and the first failed read in it. *)
Fixpoint lines (rs : list Read) : list string :=
  match rs with
  | [] => []
  | Line l :: rs' => l :: lines rs'
  | Fail _ :: rs' => lines rs'
  end.

Fixpoint failure (rs : list Read) : option string :=
  match rs with
  | [] => None
  | Line _ :: rs' => failure rs'
  | Fail e :: rs' => Some e
  end.

(** The error the scanner holds once it has gone through [rs]. *)
Definition latch (e : option string) (rs : list Read) : option string :=
  match e with
  | Some _ => e
  | None => failure rs
  end.

(** The texts of a sequence of chunks, one after the other. *)
Fixpoint texts (chunks : list Chunk) : string :=
  match chunks with
  | [] => EmptyString
  | chunk :: chunks' => Response chunk +:+ texts chunks'
  end.

(** The line, as the scanner hands it out, decodes to [chunk], and the chunk
    does not end the stream. *)
Definition decodes_open (Unmarshal : string → option Chunk)
    (line : string) (chunk : Chunk) : Prop :=
  Unmarshal (Go.dropCR line) = Some chunk ∧ Done chunk = false.

(** The scanner hands out every line of [rs], starting with [e] as its
    error: none of them is too long at a moment the scanner has to read on. *)
Fixpoint goes (e : option string) (rs : list Read) : bool :=
  match rs with
  | [] => true
  | Line l :: rs' => negb (blocked e l) && goes e rs'
  | Fail x :: rs' => goes (setErr e x) rs'
  end.

(** [Scan] called until it returns false: the lines handed out, and the
    scanner at that point. *)
Fixpoint drain (rs : list Read) (e : option string) : list string * Scanner :=
  match rs with
  | [] => ([], {| pending := []; err := e |})
  | Line l :: rs' =>
      if blocked e l
      then ([], {| pending := Line l :: rs'; err := Some Go.ErrTooLong |})
      else (l :: (drain rs' e).1, (drain rs' e).2)
  | Fail x :: rs' => drain rs' (setErr e x)
  end.

(** The request reaches the upstream service and [resp] comes back: the id
    parses, a student is stored under it and [Do] returns [resp] for the
    request built from that student. *)
Definition answered (Do : list (string * JsonValue) → DoResult)
    (r : Request) (students : gmap Z Student) (resp : HttpResponse) : Prop :=
  ∃ id student,
    Go.Atoi (vars_id r) = Some id ∧ students !! id = Some student ∧
    Do (requestBody student) = DoResponse resp.

(** Sample data. *)
Definition alice : Student :=
  {| ID := 0; Name := "Alice"; Age := 20; Email := "alice@example.org" |}.
Definition bob : Student :=
  {| ID := 77; Name := "Bob"; Age := 31; Email := "bob@example.org" |}.
Definition post (s : Student) : Request := {| vars_id := EmptyString; decoded := Some s |}.
Definition put (id : string) (s : Student) : Request := {| vars_id := id; decoded := Some s |}.
Definition at_id (id : string) : Request := {| vars_id := id; decoded := None |}.

(** One student, stored by a create on the empty map. *)
Definition one_student : gmap Z Student := (createStudent (post alice) ∅).1.

(** Three creates, then the first student is deleted. *)
Definition after_delete : gmap Z Student :=
  (deleteStudent (at_id "1")
     (createStudent (post alice)
        (createStudent (post bob)
           (createStudent (post alice) ∅).1).1).1).1.

(** An upstream that answers every request with [resp]. *)
Definition always (resp : HttpResponse) : list (string * JsonValue) → DoResult :=
  λ _, DoResponse resp.

(** The lines of the scenarios. *)
Definition hello_line : string := Wire.json "{'response':'Hello ','done':false}".
Definition world_line : string := Wire.json "{'response':'world.','done':true}".
Definition ignored_line : string := Wire.json "{'response':'ignored','done':false}".
Definition partial_line : string := Wire.json "{'response':'partial','done':false}".

(** A done chunk whose text makes the line longer than the buffer of the
    scanner, a line cut by a failed read, and the empty object. *)
Definition padding : string :=
  N.iter (Z.to_N Go.MaxScanTokenSize) (String "a"%char) EmptyString.
Definition long_done_line : string :=
  Wire.json "{'response':'" +:+ padding +:+ Wire.json "','done':true}".
Definition cut_line : string := Wire.json "{'response':'par".
Definition empty_object : string := "{}".

(** Answers of the upstream service. *)
Definition long_done : HttpResponse :=
  {| StatusCode := 200; Body := [Line hello_line; Line long_done_line] |}.
Definition cut_in_a_line : HttpResponse :=
  {| StatusCode := 200;
     Body := [Line partial_line; Fail "unexpected EOF"; Line cut_line] |}.
Definition empty_object_then_done : HttpResponse :=
  {| StatusCode := 200; Body := [Line empty_object; Line world_line] |}.
Definition hello_world : HttpResponse :=
  {| StatusCode := 200;
     Body := [Line hello_line; Line world_line; Line ignored_line] |}.
Definition failure_then_done : HttpResponse :=
  {| StatusCode := 200; Body := [Fail "unexpected EOF"; Line world_line] |}.
Definition unavailable : HttpResponse :=
  {| StatusCode := 503; Body := [Line hello_line; Line world_line] |}.
Definition garbled : HttpResponse :=
  {| StatusCode := 200;
     Body := [Line partial_line; Line "not-json"; Line world_line] |}.

(** The keys of the map are exactly 1, .., [len(students)]: the maps that
    creates and updates alone build. *)
Definition dense (students : gmap Z Student) : Prop :=
  ∀ k, is_Some (students !! k) ↔ 1 <= k <= len students.

(** One create per body, one after the other, with the replies in order. *)
Fixpoint create_all (bodies : list Student) (students : gmap Z Student)
  : gmap Z Student * list Reply :=
  match bodies with
  | [] => (students, [])
  | body :: bodies' =>
      let step := createStudent (post body) students in
      let rest := create_all bodies' step.1 in
      (rest.1, step.2 :: rest.2)
  end.

(** Three students, stored by three creates on the empty map. *)
Definition three_students : gmap Z Student :=
  (create_all [alice; bob; alice] ∅).1.

(** * Properties *)

(** ** Go's [int] and [strconv.Atoi] *)

Example atoi_42 : Go.Atoi "42" = Some 42.
Proof. reflexivity. Qed.

Example atoi_negative : Go.Atoi "-7" = Some (-7).
Proof. reflexivity. Qed.

Example atoi_not_a_number : Go.Atoi "4x" = None.
Proof. reflexivity. Qed.

Example atoi_sign_only : Go.Atoi "-" = None.
Proof. reflexivity. Qed.

Example atoi_out_of_range : Go.Atoi "9223372036854775808" = None.
Proof. reflexivity. Qed.


(** A map cannot hold [2^63 - 1] entries, and below that [len(students) + 1]
    does not wrap. *)
Lemma len_plus_one_no_wrap (students : gmap Z Student) :
  len students < Go.MaxInt → Go.wrap (len students + 1) = len students + 1.
Proof.
  unfold Go.wrap, Go.MaxInt, Go.MinInt, len. intros H.
  rewrite Z.mod_small; lia.
Qed.

Example one_student_lookup : one_student !! 1 = Some (with_ID alice 1).
Proof. vm_compute. reflexivity. Qed.

Example after_delete_shape :
  after_delete !! 1 = None ∧ after_delete !! 2 = Some (with_ID bob 2) ∧
  after_delete !! 3 = Some (with_ID alice 3) ∧ len after_delete = 2.
Proof. vm_compute. auto. Qed.

(** ** The record store *)

Lemma invalid_false (s : Student) :
  invalid s = false ↔
  Name s ≠ EmptyString ∧ Email s ≠ EmptyString ∧ 0 < Age s.
Proof.
  unfold invalid. rewrite !orb_false_iff, !String.eqb_neq, Z.leb_gt. tauto.
Qed.

Lemma invalid_true (s : Student) :
  invalid s = true ↔
  Name s = EmptyString ∨ Email s = EmptyString ∨ Age s <= 0.
Proof.
  unfold invalid. rewrite !orb_true_iff, !String.eqb_eq, Z.leb_le. tauto.
Qed.

(** What each handler does once its guards are resolved. *)

Lemma createStudent_valid r students candidate :
  decoded r = Some candidate → invalid candidate = false →
  createStudent r students =
    (<[len students + 1 := with_ID candidate (len students + 1)]> students,
     created (with_ID candidate (len students + 1))).
Proof. intros Hd Hv. unfold createStudent. rewrite Hd, Hv. reflexivity. Qed.

Lemma createStudent_invalid r students candidate :
  decoded r = Some candidate → invalid candidate = true →
  createStudent r students = (students, ValidationError).
Proof. intros Hd Hv. unfold createStudent. rewrite Hd, Hv. reflexivity. Qed.

Lemma getStudent_found r students id student :
  Go.Atoi (vars_id r) = Some id → students !! id = Some student →
  getStudent r students = (students, ok student).
Proof. intros Hid Hl. unfold getStudent. rewrite Hid, Hl. reflexivity. Qed.

Lemma getStudent_absent r students id :
  Go.Atoi (vars_id r) = Some id → students !! id = None →
  getStudent r students = (students, NotFoundError).
Proof. intros Hid Hl. unfold getStudent. rewrite Hid, Hl. reflexivity. Qed.


Lemma updateStudent_absent r students id candidate :
  Go.Atoi (vars_id r) = Some id → decoded r = Some candidate →
  invalid candidate = false → students !! id = None →
  updateStudent r students = (students, NotFoundError).
Proof.
  intros Hid Hd Hv Hl. unfold updateStudent. rewrite Hid, Hd, Hv, Hl. reflexivity.
Qed.

Lemma deleteStudent_found r students id old :
  Go.Atoi (vars_id r) = Some id → students !! id = Some old →
  deleteStudent r students = (delete id students, deleted).
Proof. intros Hid Hl. unfold deleteStudent. rewrite Hid, Hl. reflexivity. Qed.

Lemma deleteStudent_absent r students id :
  Go.Atoi (vars_id r) = Some id → students !! id = None →
  deleteStudent r students = (students, NotFoundError).
Proof. intros Hid Hl. unfold deleteStudent. rewrite Hid, Hl. reflexivity. Qed.

(** With an invalid body the validation comes first, whatever the id. *)
Lemma updateStudent_invalid r students id candidate :
  Go.Atoi (vars_id r) = Some id → decoded r = Some candidate →
  invalid candidate = true →
  updateStudent r students = (students, ValidationError).
Proof. intros Hid Hd Hv. unfold updateStudent. rewrite Hid, Hd, Hv. reflexivity. Qed.

(** The map a handler leaves is the old one, an insertion or a deletion. *)
Lemma store_inv_of_well_formed students :
  map_Forall well_formed students → store_inv students.
Proof.
  intros H. split; [exact H|].
  intros k1 k2 e1 e2 H1 H2 Heq.
  apply H in H1 as (_ & <- & _). apply H in H2 as (_ & <- & _). exact Heq.
Qed.

Lemma well_formed_with_ID candidate id :
  invalid candidate = false → 0 < id → well_formed id (with_ID candidate id).
Proof.
  intros (Hn & He & Ha)%invalid_false Hid. unfold well_formed. simpl. auto.
Qed.

Lemma len_nonneg students : 0 <= len students.
Proof. unfold len. lia. Qed.

Lemma store_inv_createStudent r students :
  store_inv students → store_inv (createStudent r students).1.
Proof.
  intros Hinv. unfold createStudent.
  destruct (decoded r) as [candidate|]; [|exact Hinv].
  destruct (invalid candidate) eqn:Hv; [exact Hinv|]. simpl.
  apply store_inv_of_well_formed, map_Forall_insert_2; [|apply Hinv].
  apply well_formed_with_ID; [exact Hv|]. pose proof (len_nonneg students). lia.
Qed.

Lemma store_inv_getStudents r students :
  store_inv students → store_inv (getStudents r students).1.
Proof. intros H. exact H. Qed.

Lemma store_inv_getStudent r students :
  store_inv students → store_inv (getStudent r students).1.
Proof.
  intros H. unfold getStudent.
  destruct (Go.Atoi (vars_id r)); [|exact H].
  destruct (students !! _); exact H.
Qed.

Lemma store_inv_updateStudent r students :
  store_inv students → store_inv (updateStudent r students).1.
Proof.
  intros Hinv. unfold updateStudent.
  destruct (Go.Atoi (vars_id r)) as [id|]; [|exact Hinv].
  destruct (decoded r) as [candidate|]; [|exact Hinv].
  destruct (invalid candidate) eqn:Hv; [exact Hinv|].
  destruct (students !! id) as [old|] eqn:Hl; [|exact Hinv]. simpl.
  apply store_inv_of_well_formed, map_Forall_insert_2; [|apply Hinv].
  apply well_formed_with_ID; [exact Hv|].
  destruct Hinv as [Hwf _]. apply Hwf in Hl as (Hpos & Hkey & _). lia.
Qed.

Lemma store_inv_deleteStudent r students :
  store_inv students → store_inv (deleteStudent r students).1.
Proof.
  intros Hinv. unfold deleteStudent.
  destruct (Go.Atoi (vars_id r)) as [id|]; [|exact Hinv].
  destruct (students !! id); [|exact Hinv]. simpl.
  apply store_inv_of_well_formed, map_Forall_delete, Hinv.
Qed.

Lemma store_inv_empty : store_inv ∅.
Proof. apply store_inv_of_well_formed, map_Forall_empty. Qed.

Lemma store_inv_handle route r students :
  store_inv students → store_inv (handle route r students).1.
Proof.
  destruct route; simpl;
    auto using store_inv_createStudent, store_inv_getStudents,
      store_inv_getStudent, store_inv_updateStudent, store_inv_deleteStudent.
Qed.

Lemma reachable_store_inv students : reachable students → store_inv students.
Proof.
  induction 1 as [|route r students _ IH];
    [apply store_inv_empty | apply store_inv_handle, IH].
Qed.

Lemma reachable_after_delete : reachable after_delete.
Proof.
  unfold after_delete.
  apply (reachable_step Delete), (reachable_step Create),
    (reachable_step Create), (reachable_step Create), reachable_start.
Qed.

(** Deleting makes [len(students) + 1] fall back onto a key that is still in
    the map: the create then replaces the student stored there, and the
    population does not grow. *)
Example create_after_delete_replaces :
  after_delete !! 3 = Some (with_ID alice 3) ∧
  createStudent (post bob) after_delete =
    (<[3 := with_ID bob 3]> after_delete, created (with_ID bob 3)) ∧
  len (createStudent (post bob) after_delete).1 = len after_delete.
Proof. vm_compute. auto. Qed.




(** C6. The invariant of the store (every entry has a positive id equal to
    its key, a non-empty name and email and a positive age, and no two
    entries share an id) holds of the empty map and is kept by each of
    create, list, get, update and delete. *)
Theorem store_invariant :
  store_inv ∅ ∧
  ∀ r students, store_inv students →
    store_inv (createStudent r students).1 ∧
    store_inv (getStudents r students).1 ∧
    store_inv (getStudent r students).1 ∧
    store_inv (updateStudent r students).1 ∧
    store_inv (deleteStudent r students).1.
Proof.
  split; [apply store_inv_empty|]. intros r students H.
  split; [|split; [|split; [|split]]].
  - apply store_inv_createStudent, H.
  - apply store_inv_getStudents, H.
  - apply store_inv_getStudent, H.
  - apply store_inv_updateStudent, H.
  - apply store_inv_deleteStudent, H.
Qed.

Lemma store_invariant_witness :
  store_inv (updateStudent (put "1" bob) one_student).1.
Proof.
  destruct (proj2 store_invariant (post alice) ∅ (proj1 store_invariant))
    as (Hcreate & _).
  destruct (proj2 store_invariant (put "1" bob) one_student Hcreate)
    as (_ & _ & _ & Hupdate & _).
  exact Hupdate.
Defined.



(** C8. A create whose body has an age of zero or less, an empty name or an
    empty email answers with the validation error and returns the map it
    was given, so the population is the same. *)
Theorem create_rejects_invalid r students candidate :
  decoded r = Some candidate →
  Age candidate <= 0 ∨ Name candidate = EmptyString ∨ Email candidate = EmptyString →
  createStudent r students = (students, ValidationError) ∧
  len (createStudent r students).1 = len students.
Proof.
  intros Hd Hbad.
  assert (Hv : invalid candidate = true) by (apply invalid_true; tauto).
  rewrite (createStudent_invalid _ _ _ Hd Hv). split; reflexivity.
Qed.

Lemma create_rejects_invalid_witness :
  createStudent (post (mkStudent 0 "Carol" 0 "carol@example.org")) one_student
    = (one_student, ValidationError) ∧
  len (createStudent (post (mkStudent 0 "Carol" 0 "carol@example.org")) one_student).1
    = len one_student.
Proof.
  apply (create_rejects_invalid _ one_student (mkStudent 0 "Carol" 0 "carol@example.org"));
    [reflexivity | left; simpl; lia].
Defined.

(** C9. A get of id returns the student stored under id exactly when id is
    a key of the map, and answers not found exactly when it is not; after a
    delete of id that succeeded, a get of id answers not found. *)
Theorem get_found_iff_stored r students id :
  Go.Atoi (vars_id r) = Some id →
  (∀ student, students !! id = Some student ↔
              getStudent r students = (students, ok student)) ∧
  (students !! id = None ↔ getStudent r students = (students, NotFoundError)) ∧
  (∀ rd, Go.Atoi (vars_id rd) = Some id →
         (deleteStudent rd students).2 = deleted →
         getStudent r (deleteStudent rd students).1
         = ((deleteStudent rd students).1, NotFoundError)).
Proof.
  intros Hid. split; [|split].
  - intros student. split; [apply getStudent_found, Hid|].
    destruct (students !! id) as [s|] eqn:Hl.
    + rewrite (getStudent_found _ _ _ _ Hid Hl). intros [= ->]. reflexivity.
    + rewrite (getStudent_absent _ _ _ Hid Hl). discriminate.
  - split; [apply getStudent_absent, Hid|].
    destruct (students !! id) as [s|] eqn:Hl; [|reflexivity].
    rewrite (getStudent_found _ _ _ _ Hid Hl). discriminate.
  - intros rd Hrd Hdel.
    destruct (students !! id) as [old|] eqn:Hl.
    + rewrite (deleteStudent_found _ _ _ _ Hrd Hl). simpl.
      apply (getStudent_absent _ _ _ Hid), lookup_delete_eq.
    + rewrite (deleteStudent_absent _ _ _ Hrd Hl) in Hdel. discriminate.
Qed.

Lemma get_found_iff_stored_witness :
  (∀ student, one_student !! 1 = Some student ↔
              getStudent (at_id "1") one_student = (one_student, ok student)) ∧
  (one_student !! 1 = None ↔
   getStudent (at_id "1") one_student = (one_student, NotFoundError)) ∧
  (∀ rd, Go.Atoi (vars_id rd) = Some 1 →
         (deleteStudent rd one_student).2 = deleted →
         getStudent (at_id "1") (deleteStudent rd one_student).1
         = ((deleteStudent rd one_student).1, NotFoundError)).
Proof.
  apply (get_found_iff_stored (at_id "1") one_student 1). reflexivity.
Defined.

(** C10. An update of id and a delete of id leave every entry under another
    key as it was; an update that succeeds changes the map only by the
    entry under id, and a delete that succeeds only by removing it. *)
Theorem update_delete_frame r students id :
  Go.Atoi (vars_id r) = Some id →
  (∀ k, k ≠ id →
        (updateStudent r students).1 !! k = students !! k ∧
        (deleteStudent r students).1 !! k = students !! k) ∧
  (∀ student, (updateStudent r students).2 = ok student →
              (updateStudent r students).1 = <[id := student]> students) ∧
  ((deleteStudent r students).2 = deleted →
   (deleteStudent r students).1 = delete id students).
Proof.
  intros Hid. unfold updateStudent, deleteStudent. rewrite Hid.
  split; [|split].
  - intros k Hk. split.
    + destruct (decoded r) as [candidate|]; [|reflexivity].
      destruct (invalid candidate); [reflexivity|].
      destruct (students !! id); [|reflexivity].
      simpl. apply lookup_insert_ne. congruence.
    + destruct (students !! id); [|reflexivity].
      simpl. apply lookup_delete_ne. congruence.
  - intros student.
    destruct (decoded r) as [candidate|]; [|discriminate].
    destruct (invalid candidate); [discriminate|].
    destruct (students !! id); [|discriminate].
    simpl. intros [= <-]. reflexivity.
  - destruct (students !! id); [reflexivity|discriminate].
Qed.

Lemma update_delete_frame_witness :
  (∀ k, k ≠ 2 →
        (updateStudent (put "2" alice) after_delete).1 !! k = after_delete !! k ∧
        (deleteStudent (put "2" alice) after_delete).1 !! k = after_delete !! k) ∧
  (∀ student, (updateStudent (put "2" alice) after_delete).2 = ok student →
              (updateStudent (put "2" alice) after_delete).1
              = <[2 := student]> after_delete) ∧
  ((deleteStudent (put "2" alice) after_delete).2 = deleted →
   (deleteStudent (put "2" alice) after_delete).1 = delete 2 after_delete).
Proof.
  apply (update_delete_frame (put "2" alice) after_delete 2). reflexivity.
Defined.

(** ** The decoder of the protocol *)

Example unmarshal_hello :
  Wire.Unmarshal (Wire.json "{'response':'Hello ','done':false}")
  = Some {| Response := "Hello "; Done := false |}.
Proof. reflexivity. Qed.

Example unmarshal_done_first :
  Wire.Unmarshal (Wire.json "{ 'done' : true , 'response' : 'world.' }")
  = Some {| Response := "world."; Done := true |}.
Proof. reflexivity. Qed.

Example unmarshal_not_json : Wire.Unmarshal "not-json" = None.
Proof. reflexivity. Qed.

Example unmarshal_empty_line : Wire.Unmarshal EmptyString = None.
Proof. reflexivity. Qed.

(** ** The summary loop *)

Arguments too_long : simpl never.
Arguments blocked : simpl never.

Lemma append_nil_r (s : string) : s +:+ EmptyString = s.
Proof.
  induction s as [|a s' IH]; [reflexivity|].
  change (String a (s' +:+ EmptyString) = String a s'). congruence.
Qed.

Lemma append_assoc (s1 s2 s3 : string) : (s1 +:+ s2) +:+ s3 = s1 +:+ s2 +:+ s3.
Proof.
  induction s1 as [|a s1' IH]; [reflexivity|].
  change (String a ((s1' +:+ s2) +:+ s3) = String a (s1' +:+ s2 +:+ s3)). congruence.
Qed.

Lemma latch_Fail e x rs : latch (setErr e x) rs = latch e (Fail x :: rs).
Proof. destruct e; reflexivity. Qed.

Lemma latch_Line e l rs : latch e (Line l :: rs) = latch e rs.
Proof. destruct e; reflexivity. Qed.

Lemma latch_nil e : latch e [] = e.
Proof. destruct e; reflexivity. Qed.

Lemma lines_fmap_Line (ls : list string) : lines (Line <$> ls) = ls.
Proof.
  induction ls as [|l ls' IH]; [reflexivity|].
  rewrite fmap_cons. simpl. congruence.
Qed.

Lemma failure_fmap_Line (ls : list string) : failure (Line <$> ls) = None.
Proof.
  induction ls as [|l ls' IH]; [reflexivity|].
  rewrite fmap_cons. simpl. congruence.
Qed.

Lemma failure_app_Line pre l : failure (pre ++ [Line l])%list = failure pre.
Proof. induction pre as [|[l'|x] pre' IH]; simpl; [reflexivity | exact IH | reflexivity]. Qed.





(** Which lines the scanner hands out. *)

Lemma blocked_Some x l : blocked (Some x) l = false.
Proof. reflexivity. Qed.

Lemma goes_app a : ∀ e b, goes e (a ++ b) = goes e a && goes (latch e a) b.
Proof.
  induction a as [|[l|x] a IH]; intros e b; simpl.
  - rewrite latch_nil. reflexivity.
  - rewrite IH, latch_Line, andb_assoc. reflexivity.
  - rewrite IH, latch_Fail. reflexivity.
Qed.

Lemma goes_fmap_Line ls :
  Forall (λ l, too_long l = false) ls → goes None (Line <$> ls) = true.
Proof.
  induction 1 as [|l ls' Hl _ IH]; [reflexivity|].
  rewrite fmap_cons. simpl. unfold blocked. rewrite Hl. exact IH.
Qed.


Lemma drain_goes rs : ∀ e,
  goes e rs = true →
  drain rs e = (lines rs, {| pending := []; err := latch e rs |}).
Proof.
  induction rs as [|[l|x] rs IH]; intros e Hg; simpl in *.
  - rewrite latch_nil. reflexivity.
  - apply andb_true_iff in Hg as [Hl Hg]. apply negb_true_iff in Hl.
    rewrite Hl, (IH e Hg), latch_Line. reflexivity.
  - rewrite (IH _ Hg), latch_Fail. reflexivity.
Qed.



(** Where the scanner stands when [Scan] has returned false. *)
Lemma drain_final rs : ∀ e,
  ∃ consumed,
    rs = (consumed ++ pending (drain rs e).2)%list ∧
    ((pending (drain rs e).2 = [] ∧ err (drain rs e).2 = latch e consumed) ∨
     (latch e consumed = None ∧ err (drain rs e).2 = Some Go.ErrTooLong ∧
      ∃ l rest, pending (drain rs e).2 = Line l :: rest ∧ too_long l = true)).
Proof.
  induction rs as [|[l|x] rs IH]; intros e; simpl.
  - exists []. split; [reflexivity|]. left. rewrite latch_nil. auto.
  - destruct (blocked e l) eqn:Hb; simpl.
    + exists []. split; [reflexivity|]. right.
      destruct e as [x|]; [discriminate Hb|]. eauto 10.
    + destruct (IH e) as (consumed & Hrs & Hend).
      exists (Line l :: consumed). split; [simpl; f_equal; exact Hrs|].
      rewrite latch_Line. exact Hend.
  - destruct (IH (setErr e x)) as (consumed & Hrs & Hend).
    exists (Fail x :: consumed). split; [simpl; f_equal; exact Hrs|].
    rewrite <- latch_Fail. exact Hend.
Qed.

Section SummaryFacts.

Variable Unmarshal : string → option Chunk.
Variable Do : list (string * JsonValue) → DoResult.

(** One turn of the loop. *)
Lemma scan_loop_step scanner fullResponse :
  scan_loop Unmarshal scanner fullResponse =
  match Scan scanner with
  | (None, scanner') => (Some fullResponse, scanner')
  | (Some line, scanner') =>
      match Unmarshal line with
      | None => (None, scanner')
      | Some chunk =>
          if Done chunk
          then (Some (fullResponse +:+ Response chunk), scanner')
          else scan_loop Unmarshal scanner' (fullResponse +:+ Response chunk)
      end
  end.
Proof.
  funelim (scan_loop Unmarshal scanner fullResponse);
    match goal with E : Scan _ = _ |- _ => rewrite E end;
    try match goal with E : Unmarshal _ = _ |- _ => rewrite E end;
    reflexivity.
Qed.

(** The loop sees the scanner only through [Scan]. *)
Lemma scan_loop_Scan scanner1 scanner2 fullResponse :
  Scan scanner1 = Scan scanner2 →
  scan_loop Unmarshal scanner1 fullResponse
  = scan_loop Unmarshal scanner2 fullResponse.
Proof.
  intros H. rewrite (scan_loop_step scanner1), (scan_loop_step scanner2), H.
  reflexivity.
Qed.

(** Going through reads whose lines are all handed out and decode to chunks
    that are not done: the texts are appended and the first failed read is
    recorded. *)
Lemma scan_loop_open pre : ∀ chunks rest e fullResponse,
  goes e pre = true →
  Forall2 (decodes_open Unmarshal) (lines pre) chunks →
  scan_loop Unmarshal {| pending := pre ++ rest; err := e |} fullResponse
  = scan_loop Unmarshal {| pending := rest; err := latch e pre |}
      (fullResponse +:+ texts chunks).
Proof.
  induction pre as [|[l|x] pre IH]; intros chunks rest e acc Hg Hdec;
    simpl in Hdec, Hg.
  - inversion Hdec; subst. simpl. rewrite append_nil_r, latch_nil. reflexivity.
  - inversion Hdec as [|? chunk ? chunks' [Hl Hopen] Hrest]; subst.
    apply andb_true_iff in Hg as [Hb Hg]. apply negb_true_iff in Hb.
    rewrite scan_loop_step. unfold Scan. simpl. rewrite Hb, Hl, Hopen.
    rewrite (IH chunks' rest e _ Hg Hrest), append_assoc, latch_Line.
    reflexivity.
  - rewrite <- latch_Fail, <- (IH chunks rest (setErr e x) acc Hg Hdec).
    apply scan_loop_Scan. reflexivity.
Qed.

(** The three ways the loop ends. *)
Lemma scan_loop_done pre chunks last chunk rest :
  goes None (pre ++ [Line last]) = true →
  Forall2 (decodes_open Unmarshal) (lines pre) chunks →
  Unmarshal (Go.dropCR last) = Some chunk → Done chunk = true →
  scan_loop Unmarshal (NewScanner (pre ++ Line last :: rest)) EmptyString
  = (Some (texts chunks +:+ Response chunk),
     {| pending := rest; err := failure pre |}).
Proof.
  rewrite goes_app. intros [Hg Hb]%andb_true_iff Hdec Hl Hdone.
  simpl in Hb. rewrite andb_true_r in Hb. apply negb_true_iff in Hb.
  unfold NewScanner.
  rewrite (scan_loop_open pre chunks _ None _ Hg Hdec), scan_loop_step.
  unfold Scan. simpl. rewrite Hb, Hl, Hdone. reflexivity.
Qed.

Lemma scan_loop_undecodable pre chunks bad rest :
  goes None (pre ++ [Line bad]) = true →
  Forall2 (decodes_open Unmarshal) (lines pre) chunks →
  Unmarshal (Go.dropCR bad) = None →
  scan_loop Unmarshal (NewScanner (pre ++ Line bad :: rest)) EmptyString
  = (None, {| pending := rest; err := failure pre |}).
Proof.
  rewrite goes_app. intros [Hg Hb]%andb_true_iff Hdec Hl.
  simpl in Hb. rewrite andb_true_r in Hb. apply negb_true_iff in Hb.
  unfold NewScanner.
  rewrite (scan_loop_open pre chunks _ None _ Hg Hdec), scan_loop_step.
  unfold Scan. simpl. rewrite Hb, Hl. reflexivity.
Qed.

Lemma scan_loop_drain rs : ∀ e fullResponse chunks,
  Forall2 (decodes_open Unmarshal) (drain rs e).1 chunks →
  scan_loop Unmarshal {| pending := rs; err := e |} fullResponse
  = (Some (fullResponse +:+ texts chunks), (drain rs e).2).
Proof.
  induction rs as [|[l|x] rs IH]; intros e acc chunks; simpl.
  - intros Hdec. inversion Hdec; subst. rewrite scan_loop_step. simpl.
    rewrite append_nil_r. reflexivity.
  - rewrite scan_loop_step. unfold Scan. simpl.
    destruct (blocked e l) eqn:Hb; simpl; intros Hdec.
    + inversion Hdec; subst. simpl. rewrite append_nil_r. reflexivity.
    + inversion Hdec as [|? chunk ? chunks' [Hl Hopen] Hrest]; subst.
      rewrite Hl, Hopen, (IH e _ chunks' Hrest). simpl.
      rewrite append_assoc. reflexivity.
  - intros Hdec. rewrite <- (IH (setErr e x) acc chunks Hdec).
    apply scan_loop_Scan. reflexivity.
Qed.

(** Once a read has failed, or a line is too long, before the done chunk is
    reached, the loop ends with an error in the scanner. *)
Lemma scan_loop_failed pre : ∀ chunks e fullResponse last chunk rest,
  Forall2 (decodes_open Unmarshal) (lines pre) chunks →
  Unmarshal (Go.dropCR last) = Some chunk → Done chunk = true →
  is_Some (latch e pre) →
  ∃ text scanner x,
    scan_loop Unmarshal {| pending := pre ++ Line last :: rest; err := e |}
      fullResponse = (Some text, scanner) ∧
    err scanner = Some x.
Proof.
  induction pre as [|[l|y] pre IH];
    intros chunks e acc last chunk rest Hdec Hlast Hdone Herr; simpl in Hdec.
  - rewrite latch_nil in Herr. destruct Herr as [x ->].
    rewrite scan_loop_step. unfold Scan. simpl. rewrite Hlast, Hdone. eauto.
  - inversion Hdec as [|? c ? chunks' [Hl Hopen] Hrest]; subst.
    rewrite scan_loop_step. unfold Scan. simpl.
    destruct (blocked e l); [eauto|]. rewrite Hl, Hopen.
    rewrite latch_Line in Herr. eapply IH; eassumption.
  - rewrite <- latch_Fail in Herr.
    destruct (IH chunks (setErr e y) acc last chunk rest Hdec Hlast Hdone Herr)
      as (text & scanner & x & Hloop & Hx).
    exists text, scanner, x. split; [|exact Hx]. rewrite <- Hloop.
    apply scan_loop_Scan. reflexivity.
Qed.

(** A body has a first line that is handed out and does not decode, or a
    first done chunk that is handed out, or the scanner stops before either. *)
Lemma body_cases (rs : list Read) : ∀ e,
  (∃ pre chunks bad rest,
     rs = (pre ++ Line bad :: rest)%list ∧
     goes e (pre ++ [Line bad]) = true ∧
     Forall2 (decodes_open Unmarshal) (lines pre) chunks ∧
     Unmarshal (Go.dropCR bad) = None) ∨
  (∃ pre chunks last chunk rest,
     rs = (pre ++ Line last :: rest)%list ∧
     goes e (pre ++ [Line last]) = true ∧
     Forall2 (decodes_open Unmarshal) (lines pre) chunks ∧
     Unmarshal (Go.dropCR last) = Some chunk ∧ Done chunk = true) ∨
  (∃ chunks, Forall2 (decodes_open Unmarshal) (drain rs e).1 chunks).
Proof.
  induction rs as [|[l|x] rs IH]; intros e.
  - right. right. exists []. constructor.
  - simpl. destruct (blocked e l) eqn:Hb.
    { right. right. exists []. constructor. }
    destruct (Unmarshal (Go.dropCR l)) as [c|] eqn:Hl.
    + destruct (Done c) eqn:Hdone.
      * right. left. exists [], [], l, c, rs. simpl. rewrite Hb.
        repeat split; [constructor | exact Hl | exact Hdone].
      * destruct (IH e) as [(pre & chunks & bad & rest & -> & Hg & Hdec & Hbad)
                       |[(pre & chunks & last & chunk & rest & -> & Hg & Hdec & Hlast & Hd)
                        |(chunks & Hdec)]].
        -- left. exists (Line l :: pre), (c :: chunks), bad, rest. simpl.
           rewrite Hb, Hg.
           repeat split; [constructor; [split|]; assumption | exact Hbad].
        -- right. left. exists (Line l :: pre), (c :: chunks), last, chunk, rest.
           simpl. rewrite Hb, Hg.
           repeat split; [constructor; [split|]; assumption | exact Hlast | exact Hd].
        -- right. right. exists (c :: chunks). simpl.
           constructor; [split|]; assumption.
    + left. exists [], [], l, rs. simpl. rewrite Hb.
      repeat split; [constructor | exact Hl].
  - simpl.
    destruct (IH (setErr e x)) as [(pre & chunks & bad & rest & -> & Hg & Hdec & Hbad)
                   |[(pre & chunks & last & chunk & rest & -> & Hg & Hdec & Hlast & Hd)
                    |(chunks & Hdec)]].
    + left. exists (Fail x :: pre), chunks, bad, rest. auto.
    + right. left. exists (Fail x :: pre), chunks, last, chunk, rest. auto.
    + right. right. exists chunks. exact Hdec.
Qed.

(** The handler, once the answer of the upstream service is there. *)
Lemma getStudentSummary_answered r students resp :
  answered Do r students resp →
  getStudentSummary Unmarshal Do r students =
    if negb (StatusCode resp =? Go.StatusOK)
    then (UpstreamStatusError (StatusCode resp), None)
    else
      match scan_loop Unmarshal (NewScanner (Body resp)) EmptyString with
      | (None, scanner) => (StreamDecodeError, Some scanner)
      | (Some fullResponse, scanner) =>
          match Err scanner with
          | Some _ => (StreamReadError, Some scanner)
          | None => (summary fullResponse, Some scanner)
          end
      end.
Proof.
  intros (id & student & Hid & Hl & Hdo).
  unfold getStudentSummary. rewrite Hid, Hl, Hdo. reflexivity.
Qed.

Lemma UpstreamStatusError_inj code1 code2 :
  UpstreamStatusError code1 = UpstreamStatusError code2 → code1 = code2.
Proof.
  unfold UpstreamStatusError, http_Error. intros [= H].
  apply (inj pretty). exact H.
Qed.

End SummaryFacts.

(** ** The summary handler *)

Section SummaryClaims.

Variable Unmarshal : string → option Chunk.
Variable Do : list (string * JsonValue) → DoResult.

(** C2, as amended.  When the upstream service answers with status 200 and
    the body starts with lines, each shorter than the buffer of the scanner
    (65536 bytes) and with no failed read among them, that decode to chunks
    that are not done, followed by such a line that decodes to a chunk that
    is done, the handler answers with the texts of all these chunks, in
    order, and leaves the scanner in front of whatever follows the done
    chunk: nothing after it is scanned or decoded.  In particular the body
    made of the hello line, the world line (done) and whatever comes third
    gives exactly the text of the first two, for every decoder that reads
    these two lines as written, and what comes third is still pending. *)
Theorem summary_stops_at_done r students resp :
  answered Do r students resp → StatusCode resp = Go.StatusOK →
  (∀ pre chunks last chunk rest,
     Body resp = ((Line <$> pre) ++ Line last :: rest)%list →
     Forall (λ l, too_long l = false) (pre ++ [last]) →
     Forall2 (decodes_open Unmarshal) pre chunks →
     Unmarshal (Go.dropCR last) = Some chunk → Done chunk = true →
     getStudentSummary Unmarshal Do r students
     = (summary (texts chunks +:+ Response chunk),
        Some {| pending := rest; err := None |})) ∧
  (∀ third,
     Body resp = [Line hello_line; Line world_line; third] →
     Unmarshal hello_line = Some {| Response := "Hello "; Done := false |} →
     Unmarshal world_line = Some {| Response := "world."; Done := true |} →
     getStudentSummary Unmarshal Do r students
     = (summary "Hello world.", Some {| pending := [third]; err := None |})).
Proof.
  intros Hans Hok.
  rewrite (getStudentSummary_answered _ _ _ _ _ Hans), Hok. simpl.
  split.
  - intros pre chunks last chunk rest -> Hfit Hdec Hlast Hdone.
    rewrite (scan_loop_done Unmarshal (Line <$> pre) chunks last chunk rest);
      [| | rewrite lines_fmap_Line; exact Hdec | exact Hlast | exact Hdone].
    + rewrite failure_fmap_Line. reflexivity.
    + change [Line last] with (Line <$> [last]). rewrite <- fmap_app.
      apply goes_fmap_Line, Hfit.
  - intros third -> Hhello Hworld.
    change [Line hello_line; Line world_line; third]
      with ([Line hello_line] ++ Line world_line :: [third])%list.
    rewrite (scan_loop_done Unmarshal [Line hello_line]
               [{| Response := "Hello "; Done := false |}] world_line
               {| Response := "world."; Done := true |} [third]);
      [reflexivity | vm_compute; reflexivity | | exact Hworld | reflexivity].
    repeat constructor. exact Hhello.
Qed.


(** C4. When the upstream service answers with a status other than 200 (so
    with every status that is not a success), the handler answers with the
    upstream status error, whose text determines the status code, and no
    scanner is made for the body: not one line is read or decoded. *)
Theorem upstream_status_error r students resp :
  answered Do r students resp → StatusCode resp ≠ Go.StatusOK →
  getStudentSummary Unmarshal Do r students
  = (UpstreamStatusError (StatusCode resp), None) ∧
  ∀ code, UpstreamStatusError code = UpstreamStatusError (StatusCode resp) →
          code = StatusCode resp.
Proof.
  intros Hans Hne%Z.eqb_neq.
  rewrite (getStudentSummary_answered _ _ _ _ _ Hans), Hne. simpl.
  split; [reflexivity | exact (λ code, UpstreamStatusError_inj code _)].
Qed.

(** C5, as amended.  When the upstream service answers with status 200 and
    [json.Unmarshal] returns an error on a line of the body, while every
    line before it decoded to a chunk that is not done and the scanner
    handed out all these lines (each is shorter than 65536 bytes, or comes
    after a failed read), the handler answers with the stream decode error,
    which holds none of the text gathered so far, and stops at that line. *)
Theorem decode_error_aborts r students resp pre chunks bad rest :
  answered Do r students resp → StatusCode resp = Go.StatusOK →
  Body resp = (pre ++ Line bad :: rest)%list →
  goes None (pre ++ [Line bad]) = true →
  Forall2 (decodes_open Unmarshal) (lines pre) chunks →
  Unmarshal (Go.dropCR bad) = None →
  getStudentSummary Unmarshal Do r students
  = (StreamDecodeError, Some {| pending := rest; err := failure pre |}).
Proof.
  intros Hans Hok Hbody Hg Hdec Hbad.
  rewrite (getStudentSummary_answered _ _ _ _ _ Hans), Hok, Hbody. simpl.
  rewrite (scan_loop_undecodable Unmarshal pre chunks bad rest Hg Hdec Hbad).
  reflexivity.
Qed.

End SummaryClaims.

(** ** The scenarios, run with the decoder of the protocol *)

Lemma answered_always resp : answered (always resp) (at_id "1") one_student resp.
Proof. exists 1, (with_ID alice 1). repeat split; reflexivity. Qed.

Example long_done_line_length : too_long long_done_line = true.
Proof. vm_compute. reflexivity. Qed.

Lemma long_done_line_decodes :
  Wire.Unmarshal long_done_line = Some {| Response := padding; Done := true |}.
Proof.
  assert (H : match Wire.Unmarshal long_done_line with
              | Some c => String.eqb (Response c) padding && Done c
              | None => false
              end = true) by (vm_compute; reflexivity).
  destruct (Wire.Unmarshal long_done_line) as [[text done]|]; [|discriminate].
  simpl in H. apply andb_true_iff in H as [->%String.eqb_eq ->]. reflexivity.
Qed.

(** C2 fails on the code.  The second line of the body is a done chunk, but
    it is longer than the buffer of the scanner: [Scan] returns false in
    front of it and the handler answers with the stream read error. *)
Lemma long_done_chunk_is_an_error :
  Wire.Unmarshal hello_line = Some {| Response := "Hello "; Done := false |} ∧
  Wire.Unmarshal long_done_line = Some {| Response := padding; Done := true |} ∧
  getStudentSummary Wire.Unmarshal (always long_done) (at_id "1") one_student
  = (StreamReadError,
     Some {| pending := [Line long_done_line]; err := Some Go.ErrTooLong |}).
Proof.
  split; [vm_compute; reflexivity|]. split; [apply long_done_line_decodes|].
  rewrite (getStudentSummary_answered _ _ _ _ _ (answered_always long_done)).
  assert (Hdrain : drain (Body long_done) None
                   = ([hello_line],
                      {| pending := [Line long_done_line];
                         err := Some Go.ErrTooLong |})).
  { unfold long_done, Body, drain.
    replace (blocked None hello_line) with false by (vm_compute; reflexivity).
    replace (blocked None long_done_line) with true
      by (symmetry; apply long_done_line_length).
    reflexivity. }
  change (negb (StatusCode long_done =? Go.StatusOK)) with false. cbv iota.
  unfold NewScanner.
  rewrite (scan_loop_drain Wire.Unmarshal (Body long_done) None EmptyString
             [{| Response := "Hello "; Done := false |}]).
  - rewrite Hdrain. reflexivity.
  - rewrite Hdrain. repeat constructor.
Qed.

Lemma summary_stops_at_done_witness :
  getStudentSummary Wire.Unmarshal (always hello_world) (at_id "1") one_student
  = (summary "Hello world.",
     Some {| pending := [Line ignored_line]; err := None |}).
Proof.
  apply (proj2 (summary_stops_at_done Wire.Unmarshal (always hello_world)
                  (at_id "1") one_student hello_world
                  (answered_always hello_world) eq_refl) (Line ignored_line));
    reflexivity.
Defined.



Lemma upstream_status_error_witness :
  getStudentSummary Wire.Unmarshal (always unavailable) (at_id "1") one_student
  = (UpstreamStatusError 503, None) ∧
  ∀ code, UpstreamStatusError code = UpstreamStatusError 503 → code = 503.
Proof.
  apply (upstream_status_error Wire.Unmarshal (always unavailable)
           (at_id "1") one_student unavailable);
    [apply answered_always | discriminate].
Defined.

(** C5 fails on the code.  The first line of the body is the empty object:
    it is valid JSON and not of the shape of a chunk, it holds neither
    field.  [json.Unmarshal] returns no error on it and leaves the chunk
    empty, so the handler goes on and answers 200 with the text of the done
    chunk that follows. *)
Lemma empty_object_is_a_chunk :
  Wire.Unmarshal empty_object = Some {| Response := EmptyString; Done := false |} ∧
  getStudentSummary Wire.Unmarshal (always empty_object_then_done) (at_id "1")
    one_student
  = ({| status := 200; payload := JsonSummary "world." |},
     Some {| pending := []; err := None |}).
Proof. split; vm_compute; reflexivity. Qed.

Lemma decode_error_aborts_witness :
  getStudentSummary Wire.Unmarshal (always garbled) (at_id "1") one_student
  = (StreamDecodeError, Some {| pending := [Line world_line]; err := None |}).
Proof.
  apply (decode_error_aborts Wire.Unmarshal (always garbled) (at_id "1")
           one_student garbled [Line partial_line]
           [{| Response := "partial"; Done := false |}] "not-json"
           [Line world_line]);
    [apply answered_always | reflexivity | reflexivity | reflexivity
    | repeat constructor | reflexivity].
Defined.

Example upstream_status_error_text :
  UpstreamStatusError 503
  = http_Error "Ollama returned status 503" Go.StatusInternalServerError.
Proof. vm_compute. reflexivity. Qed.

(** A read that fails while the done chunk is still in the buffer: the loop
    sees the done chunk and breaks, and [scanner.Err()] then reports the
    failure. *)
Example done_after_failed_read :
  getStudentSummary Wire.Unmarshal (always failure_then_done) (at_id "1")
    one_student
  = (StreamReadError, Some {| pending := []; err := Some "unexpected EOF" |}).
Proof. vm_compute. reflexivity. Qed.

(** A read that fails in the middle of a line: the scanner hands out the
    part of the line it holds, which does not decode. *)
Example cut_line_is_a_decode_error :
  getStudentSummary Wire.Unmarshal (always cut_in_a_line) (at_id "1") one_student
  = (StreamDecodeError, Some {| pending := []; err := Some "unexpected EOF" |}).
Proof. vm_compute. reflexivity. Qed.

(** A carriage return before the newline is not part of the line. *)
Example carriage_return_is_dropped :
  Scan (NewScanner [Line (hello_line +:+ String (ascii_of_N 13) EmptyString)])
  = (Some hello_line, {| pending := []; err := None |}).
Proof. vm_compute. reflexivity. Qed.

(** ** The older copy *)

Lemma part000_createStudent_same r students :
  (Part000.createStudent r students).1 = (createStudent r students).1 ∧
  status (Part000.createStudent r students).2 = status (createStudent r students).2 ∧
  (is_Some (decoded r) →
   Part000.createStudent r students = createStudent r students).
Proof.
  unfold Part000.createStudent, createStudent.
  destruct (decoded r) as [candidate|]; simpl.
  - destruct (invalid candidate); auto.
  - repeat split. intros [? [=]].
Qed.

Lemma part000_updateStudent_same r students :
  (Part000.updateStudent r students).1 = (updateStudent r students).1 ∧
  status (Part000.updateStudent r students).2 = status (updateStudent r students).2 ∧
  (is_Some (decoded r) →
   Part000.updateStudent r students = updateStudent r students).
Proof.
  unfold Part000.updateStudent, updateStudent.
  destruct (Go.Atoi (vars_id r)) as [id|]; [|auto].
  destruct (decoded r) as [candidate|]; simpl.
  - destruct (invalid candidate); auto.
  - repeat split. intros [? [=]].
Qed.

(** The older handler never looks at the status code: the body of any
    answer is scanned. *)
Lemma part000_getStudentSummary_ignores_status Unmarshal code1 code2 body r students :
  Part000.getStudentSummary Unmarshal
    (always {| StatusCode := code1; Body := body |}) r students
  = Part000.getStudentSummary Unmarshal
      (always {| StatusCode := code2; Body := body |}) r students.
Proof.
  unfold Part000.getStudentSummary.
  destruct (Go.Atoi (vars_id r)); [|reflexivity].
  destruct (students !! _); reflexivity.
Qed.

(** On an answer with status 200 the two copies of the handler agree. *)
Lemma part000_getStudentSummary_same Unmarshal resp r students :
  StatusCode resp = Go.StatusOK →
  Part000.getStudentSummary Unmarshal (always resp) r students
  = getStudentSummary Unmarshal (always resp) r students.
Proof.
  intros Hok. unfold Part000.getStudentSummary, getStudentSummary.
  destruct (Go.Atoi (vars_id r)); [|reflexivity].
  destruct (students !! _); [|reflexivity].
  unfold always. rewrite Hok. reflexivity.
Qed.

Example part000_summarises_a_503 :
  Part000.getStudentSummary Wire.Unmarshal (always unavailable) (at_id "1")
    one_student
  = (summary "Hello world.", Some {| pending := []; err := None |}).
Proof. vm_compute. reflexivity. Qed.

(** * Further properties of the handlers *)

(** ** Population and keys *)

Lemma len_insert_None students k (e : Student) :
  students !! k = None → len (<[k := e]> students) = len students + 1.
Proof. intros H. unfold len. rewrite (map_size_insert_None _ _ _ H). lia. Qed.

Lemma len_insert_Some students k (e old : Student) :
  students !! k = Some old → len (<[k := e]> students) = len students.
Proof. intros H. unfold len. rewrite map_size_insert_Some; eauto. Qed.

Lemma len_delete_Some (students : gmap Z Student) k old :
  students !! k = Some old → len (delete k students) = len students - 1.
Proof.
  intros H. unfold len. rewrite map_size_delete_Some by eauto.
  assert (size students ≠ 0%nat) by (eapply map_size_ne_0_lookup_2; eauto).
  lia.
Qed.

Lemma dense_next_free students : dense students → students !! (len students + 1) = None.
Proof.
  intros Hd. destruct (students !! (len students + 1)) eqn:E; [|reflexivity].
  assert (1 <= len students + 1 <= len students) by (apply Hd; eauto). lia.
Qed.

Lemma dense_empty : dense ∅.
Proof.
  intros k. rewrite lookup_empty. unfold len. rewrite map_size_empty.
  split; [intros [? [=]] | lia].
Qed.

Lemma dense_createStudent body students :
  dense students → invalid body = false →
  dense (createStudent (post body) students).1 ∧
  len (createStudent (post body) students).1 = len students + 1.
Proof.
  intros Hd Hv. rewrite (createStudent_valid (post body) _ body eq_refl Hv). simpl.
  pose proof (dense_next_free _ Hd) as Hfree.
  split; [|apply len_insert_None, Hfree].
  intros k. rewrite (len_insert_None _ _ _ Hfree).
  destruct (decide (k = len students + 1)) as [->|Hne].
  - rewrite lookup_insert_eq. pose proof (len_nonneg students).
    split; [lia | eauto].
  - rewrite lookup_insert_ne by congruence. rewrite (Hd k). lia.
Qed.

(** X1. A create with a valid body followed by a get of the id it returned
    answers 200 with exactly the student the create answered with. *)
Theorem create_then_get r students body r' :
  decoded r = Some body → invalid body = false →
  Go.Atoi (vars_id r') = Some (len students + 1) →
  (createStudent r students).2 = created (with_ID body (len students + 1)) ∧
  getStudent r' (createStudent r students).1
  = ((createStudent r students).1, ok (with_ID body (len students + 1))).
Proof.
  intros Hd Hv Hid. rewrite (createStudent_valid _ _ _ Hd Hv). simpl.
  split; [reflexivity|].
  apply (getStudent_found _ _ _ _ Hid), lookup_insert_eq.
Qed.

Lemma create_then_get_witness :
  (createStudent (post bob) after_delete).2 = created (with_ID bob 3) ∧
  getStudent (at_id "3") (createStudent (post bob) after_delete).1
  = ((createStudent (post bob) after_delete).1, ok (with_ID bob 3)).
Proof.
  apply (create_then_get (post bob) after_delete bob (at_id "3")); reflexivity.
Defined.

(** X2. A create with a valid body makes the population grow by one exactly
    when no student is stored under [len(students) + 1]; when one is, it is
    replaced and the population stays the same. *)
Theorem create_population r students body :
  decoded r = Some body → invalid body = false →
  (students !! (len students + 1) = None →
   len (createStudent r students).1 = len students + 1) ∧
  (∀ old, students !! (len students + 1) = Some old →
     len (createStudent r students).1 = len students ∧
     (createStudent r students).1 !! (len students + 1)
     = Some (with_ID body (len students + 1))).
Proof.
  intros Hd Hv. rewrite (createStudent_valid _ _ _ Hd Hv). simpl. split.
  - apply len_insert_None.
  - intros old Hold. split; [apply (len_insert_Some _ _ _ _ Hold)|].
    apply lookup_insert_eq.
Qed.

Lemma create_population_witness :
  (after_delete !! (len after_delete + 1) = None →
   len (createStudent (post bob) after_delete).1 = len after_delete + 1) ∧
  (∀ old, after_delete !! (len after_delete + 1) = Some old →
     len (createStudent (post bob) after_delete).1 = len after_delete ∧
     (createStudent (post bob) after_delete).1 !! (len after_delete + 1)
     = Some (with_ID bob (len after_delete + 1))).
Proof.
  apply (create_population (post bob) after_delete bob); reflexivity.
Defined.



(** X4. In a map whose keys are 1, .., n, deleting an id below n and then
    creating hands out the id n again: the student that was stored under n
    is replaced by the new one and the population ends at n - 1. *)
Theorem delete_then_create_replaces rd r students k body :
  dense students → Go.Atoi (vars_id rd) = Some k → 1 <= k < len students →
  decoded r = Some body → invalid body = false →
  (deleteStudent rd students).2 = deleted ∧
  is_Some (students !! len students) ∧
  createStudent r (deleteStudent rd students).1
  = (<[len students := with_ID body (len students)]> (delete k students),
     created (with_ID body (len students))) ∧
  len (createStudent r (deleteStudent rd students).1).1 = len students - 1.
Proof.
  intros Hdense Hk Hrange Hd Hv.
  assert (is_Some (students !! k)) as [old Hold] by (apply Hdense; lia).
  assert (is_Some (students !! len students)) as [top Htop] by (apply Hdense; lia).
  rewrite (deleteStudent_found _ _ _ _ Hk Hold). simpl.
  pose proof (len_delete_Some _ _ _ Hold) as Hlen.
  rewrite (createStudent_valid _ _ _ Hd Hv), Hlen.
  replace (len students - 1 + 1) with (len students) by lia. simpl.
  split; [reflexivity|]. split; [eauto|]. split; [reflexivity|].
  assert (delete k students !! len students = Some top) as Htop'
    by (rewrite lookup_delete_ne by lia; exact Htop).
  rewrite (len_insert_Some _ _ _ _ Htop'). exact Hlen.
Qed.

Lemma dense_three_students : dense three_students.
Proof.
  unfold three_students. cbn [create_all fst].
  repeat (apply dense_createStudent; [|reflexivity]).
  apply dense_empty.
Qed.

Lemma delete_then_create_replaces_witness :
  (deleteStudent (at_id "1") three_students).2 = deleted ∧
  is_Some (three_students !! len three_students) ∧
  createStudent (post bob) (deleteStudent (at_id "1") three_students).1
  = (<[len three_students := with_ID bob (len three_students)]>
       (delete 1 three_students),
     created (with_ID bob (len three_students))) ∧
  len (createStudent (post bob) (deleteStudent (at_id "1") three_students).1).1
  = len three_students - 1.
Proof.
  apply (delete_then_create_replaces (at_id "1") (post bob) three_students 1 bob);
    [apply dense_three_students | reflexivity | vm_compute; split; congruence
    | reflexivity | reflexivity].
Defined.

(** ** Error replies and the order of the checks *)

(** X5. Whatever the route and the request, a reply with a status of 400 or
    more means that the map is the one the handler was given. *)
Theorem error_replies_leave_store route r students :
  400 <= status (handle route r students).2 →
  (handle route r students).1 = students.
Proof.
  destruct route; simpl;
    unfold createStudent, getStudents, getStudent, updateStudent, deleteStudent;
    repeat match goal with
      | |- context [match ?x with _ => _ end] => destruct x
      end; simpl;
    unfold Go.StatusCreated, Go.StatusOK, Go.StatusNoContent;
    first [reflexivity | lia].
Qed.

Lemma error_replies_leave_store_witness :
  (handle Update (put "9" bob) after_delete).1 = after_delete.
Proof.
  apply (error_replies_leave_store Update (put "9" bob) after_delete).
  vm_compute. discriminate.
Defined.

(** X6. The status of an update tells which check stopped it, in the order
    of the source: 400 when the id does not parse, the body does not decode
    or a field is invalid; 404 only when id and body are fine and the id is
    not in the map; 200 only when they are fine and the id is in the map.
    A bad body under an unknown id is a 400, not a 404. *)
Theorem updateStudent_status r students :
  (status (updateStudent r students).2 = 400 ↔
     Go.Atoi (vars_id r) = None ∨ decoded r = None ∨
     ∃ body, decoded r = Some body ∧ invalid body = true) ∧
  (status (updateStudent r students).2 = 404 ↔
     ∃ id body, Go.Atoi (vars_id r) = Some id ∧ decoded r = Some body ∧
                invalid body = false ∧ students !! id = None) ∧
  (status (updateStudent r students).2 = 200 ↔
     ∃ id body, Go.Atoi (vars_id r) = Some id ∧ decoded r = Some body ∧
                invalid body = false ∧ is_Some (students !! id)).
Proof.
  unfold updateStudent.
  destruct (Go.Atoi (vars_id r)) as [id|] eqn:Hid;
    [destruct (decoded r) as [body|] eqn:Hd;
     [destruct (invalid body) eqn:Hv;
      [|destruct (students !! id) as [old|] eqn:Hl]|]|];
    simpl; unfold Go.StatusBadRequest, Go.StatusNotFound, Go.StatusOK;
    (split; [|split]); split; intros H; try discriminate H; try reflexivity;
    eauto 10.
  all: try (destruct H as (? & ? & ? & ? & ? & ?); congruence).
  all: try (destruct H as (? & ? & ? & ? & ? & [? ?]); congruence).
  all: destruct H as [?|[?|(? & ? & ?)]]; congruence.
Qed.

(** X7. An update never adds or removes a key: the key set and the
    population after it are those before it, for every request. *)
Theorem updateStudent_keeps_keys r students :
  dom (updateStudent r students).1 = dom students ∧
  len (updateStudent r students).1 = len students.
Proof.
  unfold updateStudent.
  destruct (Go.Atoi (vars_id r)) as [id|]; [|done].
  destruct (decoded r) as [body|]; [|done].
  destruct (invalid body); [done|].
  destruct (students !! id) as [old|] eqn:Hl; [|done]. simpl. split.
  - apply dom_insert_lookup_L. eauto.
  - apply (len_insert_Some _ _ _ _ Hl).
Qed.

(** X8. A delete that answers 204 removed exactly the id of the path, which
    was a key, and the population went down by one. *)
Theorem deleteStudent_population r students id :
  Go.Atoi (vars_id r) = Some id →
  status (deleteStudent r students).2 = 204 →
  id ∈ dom students ∧
  dom (deleteStudent r students).1 = dom students ∖ {[id]} ∧
  len (deleteStudent r students).1 = len students - 1.
Proof.
  intros Hid. unfold deleteStudent. rewrite Hid.
  destruct (students !! id) as [old|] eqn:Hl; simpl; [intros _|discriminate].
  split; [apply elem_of_dom; eauto|].
  split; [apply dom_delete_L | apply (len_delete_Some _ _ _ Hl)].
Qed.

Lemma deleteStudent_population_witness :
  2 ∈ dom after_delete ∧
  dom (deleteStudent (at_id "2") after_delete).1 = dom after_delete ∖ {[2]} ∧
  len (deleteStudent (at_id "2") after_delete).1 = len after_delete - 1.
Proof.
  apply (deleteStudent_population (at_id "2") after_delete 2); reflexivity.
Defined.

(** ** How the handlers compose *)

(** X9. Of two updates of the same id the second wins when its body is
    valid: the map and the reply after both are those of the second update
    alone, whatever the first one was.  In particular an update done twice
    is an update done once. *)
Theorem update_update r1 r2 students id body :
  Go.Atoi (vars_id r1) = Some id → Go.Atoi (vars_id r2) = Some id →
  decoded r2 = Some body → invalid body = false →
  updateStudent r2 (updateStudent r1 students).1 = updateStudent r2 students.
Proof.
  intros H1 H2 Hd Hv. unfold updateStudent. rewrite H1, H2, Hd, Hv.
  destruct (decoded r1) as [b1|]; [|reflexivity].
  destruct (invalid b1); [reflexivity|].
  destruct (students !! id) as [old|] eqn:Hl; simpl; [|rewrite Hl; reflexivity].
  rewrite lookup_insert_eq, insert_insert_eq. reflexivity.
Qed.

Lemma update_update_witness :
  updateStudent (put "2" alice) (updateStudent (put "2" bob) after_delete).1
  = updateStudent (put "2" alice) after_delete.
Proof.
  apply (update_update (put "2" bob) (put "2" alice) after_delete 2 alice);
    reflexivity.
Defined.

(** X10. Once a delete of an id has answered 204, a second delete of that
    id and an update of it with a valid body both answer not found and
    leave the map as the first delete left it. *)
Theorem after_delete_not_found rd r students id :
  Go.Atoi (vars_id rd) = Some id → Go.Atoi (vars_id r) = Some id →
  (deleteStudent rd students).2 = deleted →
  deleteStudent r (deleteStudent rd students).1
  = ((deleteStudent rd students).1, NotFoundError) ∧
  ∀ body, decoded r = Some body → invalid body = false →
    updateStudent r (deleteStudent rd students).1
    = ((deleteStudent rd students).1, NotFoundError).
Proof.
  intros Hrd Hr Hdel.
  destruct (students !! id) as [old|] eqn:Hl.
  - rewrite (deleteStudent_found _ _ _ _ Hrd Hl). simpl. split.
    + apply (deleteStudent_absent _ _ _ Hr), lookup_delete_eq.
    + intros body Hd Hv.
      apply (updateStudent_absent _ _ _ _ Hr Hd Hv), lookup_delete_eq.
  - rewrite (deleteStudent_absent _ _ _ Hrd Hl) in Hdel. discriminate.
Qed.

Lemma after_delete_not_found_witness :
  deleteStudent (put "1" bob) (deleteStudent (at_id "1") one_student).1
  = ((deleteStudent (at_id "1") one_student).1, NotFoundError) ∧
  ∀ body, decoded (put "1" bob) = Some body → invalid body = false →
    updateStudent (put "1" bob) (deleteStudent (at_id "1") one_student).1
    = ((deleteStudent (at_id "1") one_student).1, NotFoundError).
Proof.
  apply (after_delete_not_found (at_id "1") (put "1" bob) one_student 1);
    reflexivity.
Defined.

(** ** The listing *)

(** X11. The listing holds exactly the students stored in the map, as many
    as the population, and when the map satisfies the invariant of the
    store no id occurs twice in it. *)
Theorem getStudents_lists_store r students :
  store_inv students →
  ∃ l, getStudents r students
       = (students, {| status := 200; payload := JsonStudents l |}) ∧
       (∀ e, e ∈ l ↔ ∃ k, students !! k = Some e) ∧
       length l = size students ∧
       NoDup (ID <$> l).
Proof.
  intros [Hwf _]. exists (map_to_list students).*2.
  split; [reflexivity|]. split; [|split].
  - intros e. rewrite list_elem_of_fmap. split.
    + intros ([k e'] & -> & Hin). exists k. apply elem_of_map_to_list, Hin.
    + intros (k & Hk). exists (k, e). split; [reflexivity|].
      apply elem_of_map_to_list, Hk.
  - rewrite length_fmap. apply length_map_to_list.
  - replace (ID <$> (map_to_list students).*2) with (map_to_list students).*1;
      [apply NoDup_fst_map_to_list|].
    rewrite <- list_fmap_compose. apply Forall_fmap_ext_1, Forall_forall.
    intros [k e] Hin%elem_of_map_to_list. simpl.
    apply Hwf in Hin as (_ & Hkey & _). congruence.
Qed.

Lemma getStudents_lists_store_witness :
  ∃ l, getStudents (at_id "") after_delete
       = (after_delete, {| status := 200; payload := JsonStudents l |}) ∧
       (∀ e, e ∈ l ↔ ∃ k, after_delete !! k = Some e) ∧
       length l = size after_delete ∧
       NoDup (ID <$> l).
Proof.
  apply (getStudents_lists_store (at_id "") after_delete).
  apply reachable_store_inv, reachable_after_delete.
Defined.

(** ** Every body, and what a 200 summary is made of *)

Section SummaryShapes.

Variable Unmarshal : string → option Chunk.
Variable Do : list (string * JsonValue) → DoResult.

(** X12. When the upstream service answers with status 200, the handler
    consumes a prefix of the body and leaves the scanner in front of the
    rest.  Its reply is the stream decode error; or the stream read error,
    when a read of the prefix failed or when the scanner stands in front of
    a line of 65536 bytes or more, which does not fit in its buffer; or a
    summary, when no read of the prefix failed and the scanner holds no
    error. *)
Theorem summary_reply_cases r students resp :
  answered Do r students resp → StatusCode resp = Go.StatusOK →
  ∃ consumed scanner,
    (getStudentSummary Unmarshal Do r students).2 = Some scanner ∧
    Body resp = (consumed ++ pending scanner)%list ∧
    (((getStudentSummary Unmarshal Do r students).1 = StreamDecodeError ∧
      err scanner = failure consumed) ∨
     ((getStudentSummary Unmarshal Do r students).1 = StreamReadError ∧
      ((is_Some (failure consumed) ∧ err scanner = failure consumed) ∨
       (failure consumed = None ∧ err scanner = Some Go.ErrTooLong ∧
        ∃ l rest, pending scanner = Line l :: rest ∧ too_long l = true))) ∨
     (∃ text, (getStudentSummary Unmarshal Do r students).1 = summary text ∧
              failure consumed = None ∧ err scanner = None)).
Proof.
  intros Hans Hok.
  rewrite (getStudentSummary_answered _ _ _ _ _ Hans), Hok. simpl.
  destruct (body_cases Unmarshal (Body resp) None)
    as [(pre & chunks & bad & rest & Hbody & Hg & Hdec & Hbad)
       |[(pre & chunks & last & chunk & rest & Hbody & Hg & Hdec & Hlast & Hd)
        |(chunks & Hdec)]].
  - rewrite Hbody, (scan_loop_undecodable _ _ _ _ _ Hg Hdec Hbad).
    exists (pre ++ [Line bad])%list, {| pending := rest; err := failure pre |}.
    simpl. rewrite <- app_assoc, failure_app_Line. auto.
  - rewrite Hbody, (scan_loop_done _ _ _ _ _ _ Hg Hdec Hlast Hd).
    exists (pre ++ [Line last])%list, {| pending := rest; err := failure pre |}.
    unfold Err. simpl. rewrite <- app_assoc, failure_app_Line.
    destruct (failure pre) eqn:Hf; simpl; eauto 10.
  - unfold NewScanner. rewrite (scan_loop_drain _ _ _ _ _ Hdec). unfold Err.
    destruct (drain_final (Body resp) None)
      as (consumed & Hbody & [[Hp He]|(Hl & He & l & rest & Hp & Hlong)]);
      exists consumed, (drain (Body resp) None).2; simpl in *; rewrite He.
    + destruct (failure consumed) eqn:Hf; simpl; eauto 10.
    + simpl. split; [reflexivity|]. split; [exact Hbody|].
      right. left. split; [reflexivity|]. right. eauto 10.
Qed.


(** X14. A read of the body that fails before the done chunk is scanned
    turns the answer into the stream read error, although the done chunk is
    in the body; when the scanner hands out every line up to the done chunk,
    the done chunk was read and the loop left by [break], and the error
    comes from asking [scanner.Err()] after the loop. *)
Theorem failed_read_before_done r students resp pre chunks last chunk rest e :
  answered Do r students resp → StatusCode resp = Go.StatusOK →
  Body resp = (pre ++ Line last :: rest)%list →
  Forall2 (decodes_open Unmarshal) (lines pre) chunks →
  Unmarshal (Go.dropCR last) = Some chunk → Done chunk = true →
  failure pre = Some e →
  (getStudentSummary Unmarshal Do r students).1 = StreamReadError ∧
  (goes None (pre ++ [Line last]) = true →
   getStudentSummary Unmarshal Do r students
   = (StreamReadError, Some {| pending := rest; err := Some e |})).
Proof.
  intros Hans Hok Hbody Hdec Hlast Hd Hf.
  rewrite (getStudentSummary_answered _ _ _ _ _ Hans), Hok, Hbody. simpl. split.
  - destruct (scan_loop_failed Unmarshal pre chunks None EmptyString last chunk
                rest Hdec Hlast Hd) as (text & scanner & x & Hloop & Hx).
    { simpl. rewrite Hf. eauto. }
    unfold NewScanner. rewrite Hloop. unfold Err. rewrite Hx. reflexivity.
  - intros Hg.
    rewrite (scan_loop_done _ _ _ _ _ _ Hg Hdec Hlast Hd), Hf. reflexivity.
Qed.

(** X15. A 200 reply of the summary handler is a summary, and it is only
    given when the id parsed, a student was stored under it and the
    upstream service answered with status 200. *)
Theorem summary_ok_only_after_upstream_ok r students :
  status (getStudentSummary Unmarshal Do r students).1 = 200 →
  ∃ resp text,
    answered Do r students resp ∧ StatusCode resp = 200 ∧
    (getStudentSummary Unmarshal Do r students).1 = summary text.
Proof.
  unfold getStudentSummary, answered.
  destruct (Go.Atoi (vars_id r)) as [id|] eqn:Hid; [|discriminate].
  destruct (students !! id) as [student|] eqn:Hl; [|discriminate].
  destruct (Do (requestBody student)) as [e|resp] eqn:Hdo; [discriminate|].
  destruct (StatusCode resp =? Go.StatusOK) eqn:Hok; [|discriminate].
  apply Z.eqb_eq in Hok. simpl.
  destruct (scan_loop _ _ _) as [[text|] scanner]; [|discriminate].
  destruct (Err scanner); [discriminate|]. intros _.
  exists resp, text. eauto 10.
Qed.

End SummaryShapes.

(** X16. When the id of the path does not parse or no student is stored
    under it, the upstream service is not called and nothing is decoded:
    the reply is a 400 or a 404 that does not depend on them, and no scanner
    is made. *)
Theorem summary_without_student r students :
  (∀ id, Go.Atoi (vars_id r) = Some id → students !! id = None) →
  ∀ Unmarshal Do,
    (getStudentSummary Unmarshal Do r students
     = (http_Error "Invalid student ID" Go.StatusBadRequest, None) ∧
     Go.Atoi (vars_id r) = None) ∨
    (getStudentSummary Unmarshal Do r students = (NotFoundError, None) ∧
     is_Some (Go.Atoi (vars_id r))).
Proof.
  intros Habs Unmarshal Do. unfold getStudentSummary.
  destruct (Go.Atoi (vars_id r)) as [id|] eqn:Hid; [|left; auto].
  rewrite (Habs id eq_refl). right. eauto.
Qed.

Lemma summary_reply_cases_witness :
  ∃ consumed scanner,
    (getStudentSummary Wire.Unmarshal (always long_done) (at_id "1")
       one_student).2 = Some scanner ∧
    Body long_done = (consumed ++ pending scanner)%list ∧
    (((getStudentSummary Wire.Unmarshal (always long_done) (at_id "1")
         one_student).1 = StreamDecodeError ∧
      err scanner = failure consumed) ∨
     ((getStudentSummary Wire.Unmarshal (always long_done) (at_id "1")
         one_student).1 = StreamReadError ∧
      ((is_Some (failure consumed) ∧ err scanner = failure consumed) ∨
       (failure consumed = None ∧ err scanner = Some Go.ErrTooLong ∧
        ∃ l rest, pending scanner = Line l :: rest ∧ too_long l = true))) ∨
     (∃ text, (getStudentSummary Wire.Unmarshal (always long_done) (at_id "1")
                 one_student).1 = summary text ∧
              failure consumed = None ∧ err scanner = None)).
Proof.
  apply (summary_reply_cases Wire.Unmarshal (always long_done)
           (at_id "1") one_student long_done);
    [apply answered_always | reflexivity].
Defined.


Lemma failed_read_before_done_witness :
  (getStudentSummary Wire.Unmarshal (always failure_then_done) (at_id "1")
     one_student).1 = StreamReadError ∧
  (goes None ([Fail "unexpected EOF"] ++ [Line world_line]) = true →
   getStudentSummary Wire.Unmarshal (always failure_then_done) (at_id "1")
     one_student
   = (StreamReadError, Some {| pending := []; err := Some "unexpected EOF" |})).
Proof.
  apply (failed_read_before_done Wire.Unmarshal (always failure_then_done)
           (at_id "1") one_student failure_then_done
           [Fail "unexpected EOF"] [] world_line
           {| Response := "world."; Done := true |} [] "unexpected EOF");
    [apply answered_always | reflexivity | reflexivity | constructor
    | reflexivity | reflexivity | reflexivity].
Defined.

Lemma summary_ok_only_after_upstream_ok_witness :
  ∃ resp text,
    answered (always hello_world) (at_id "1") one_student resp ∧
    StatusCode resp = 200 ∧
    (getStudentSummary Wire.Unmarshal (always hello_world) (at_id "1")
       one_student).1 = summary text.
Proof.
  apply (summary_ok_only_after_upstream_ok Wire.Unmarshal (always hello_world)
           (at_id "1") one_student).
  vm_compute. reflexivity.
Defined.

Lemma summary_without_student_witness :
  (getStudentSummary Wire.Unmarshal (always hello_world) (at_id "9") one_student
   = (http_Error "Invalid student ID" Go.StatusBadRequest, None) ∧
   Go.Atoi (vars_id (at_id "9")) = None) ∨
  (getStudentSummary Wire.Unmarshal (always hello_world) (at_id "9") one_student
   = (NotFoundError, None) ∧
   is_Some (Go.Atoi (vars_id (at_id "9")))).
Proof.
  apply (summary_without_student (at_id "9") one_student).
  intros id [= <-]. reflexivity.
Defined.

(** ** The two copies of the program *)

(** X17. The two copies of the create and of the update handler leave the
    same map and give the same status for every request; their replies are
    the same except for the text of the 400 given to a body that does not
    decode. *)
Theorem part000_same_store_effect r students :
  ((Part000.createStudent r students).1 = (createStudent r students).1 ∧
   status (Part000.createStudent r students).2
   = status (createStudent r students).2 ∧
   (Part000.createStudent r students = createStudent r students
    ↔ is_Some (decoded r))) ∧
  ((Part000.updateStudent r students).1 = (updateStudent r students).1 ∧
   status (Part000.updateStudent r students).2
   = status (updateStudent r students).2 ∧
   (Part000.updateStudent r students = updateStudent r students
    ↔ Go.Atoi (vars_id r) = None ∨ is_Some (decoded r))).
Proof.
  unfold Part000.createStudent, createStudent,
    Part000.updateStudent, updateStudent.
  destruct (Go.Atoi (vars_id r)) as [id|]; destruct (decoded r) as [body|];
    simpl; repeat split; eauto; try discriminate.
  all: try (intros [? [=]]).
  all: intros [[=]|[? [=]]].
Qed.

(** X18. The older copy of the summary handler does not look at the status
    code: two answers of the upstream service with the same body give the
    same reply and leave the scanner in the same state, whatever their
    status codes. *)
Theorem part000_status_is_ignored Unmarshal Post1 Post2 r students id student resp1 resp2 :
  Go.Atoi (vars_id r) = Some id → students !! id = Some student →
  Post1 (Part000.requestBody student) = DoResponse resp1 →
  Post2 (Part000.requestBody student) = DoResponse resp2 →
  Body resp1 = Body resp2 →
  Part000.getStudentSummary Unmarshal Post1 r students
  = Part000.getStudentSummary Unmarshal Post2 r students.
Proof.
  intros Hid Hl H1 H2 Hbody. unfold Part000.getStudentSummary.
  rewrite Hid, Hl, H1, H2, Hbody. reflexivity.
Qed.

Lemma part000_status_is_ignored_witness :
  Part000.getStudentSummary Wire.Unmarshal (always unavailable) (at_id "1")
    one_student
  = Part000.getStudentSummary Wire.Unmarshal
      (always {| StatusCode := 200; Body := Body unavailable |}) (at_id "1")
      one_student.
Proof.
  apply (part000_status_is_ignored Wire.Unmarshal (always unavailable)
           (always {| StatusCode := 200; Body := Body unavailable |})
           (at_id "1") one_student 1 (with_ID alice 1) unavailable
           {| StatusCode := 200; Body := Body unavailable |});
    reflexivity.
Defined.

(** X19. The create and update handlers of the older copy keep the
    invariant of the store. *)
Theorem part000_store_inv r students :
  store_inv students →
  store_inv (Part000.createStudent r students).1 ∧
  store_inv (Part000.updateStudent r students).1.
Proof.
  intros Hinv.
  rewrite (proj1 (part000_createStudent_same r students)),
    (proj1 (part000_updateStudent_same r students)).
  split; [apply store_inv_createStudent | apply store_inv_updateStudent];
    exact Hinv.
Qed.

Lemma part000_store_inv_witness :
  store_inv (Part000.createStudent (post bob) after_delete).1 ∧
  store_inv (Part000.updateStudent (post bob) after_delete).1.
Proof.
  apply (part000_store_inv (post bob) after_delete).
  apply reachable_store_inv, reachable_after_delete.
Defined.

(** X20. When the upstream service gives both copies of the summary handler
    the same answer and its status is 200, the two copies give the same
    reply and leave the scanner in the same state. *)
Theorem part000_same_summary_on_ok Unmarshal Do Post r students id student resp :
  Go.Atoi (vars_id r) = Some id → students !! id = Some student →
  Do (requestBody student) = DoResponse resp →
  Post (Part000.requestBody student) = DoResponse resp →
  StatusCode resp = Go.StatusOK →
  Part000.getStudentSummary Unmarshal Post r students
  = getStudentSummary Unmarshal Do r students.
Proof.
  intros Hid Hl Hdo Hpost Hok.
  unfold Part000.getStudentSummary, getStudentSummary.
  rewrite Hid, Hl, Hdo, Hpost, Hok. reflexivity.
Qed.

Lemma part000_same_summary_on_ok_witness :
  Part000.getStudentSummary Wire.Unmarshal (always hello_world) (at_id "1")
    one_student
  = getStudentSummary Wire.Unmarshal (always hello_world) (at_id "1") one_student.
Proof.
  apply (part000_same_summary_on_ok Wire.Unmarshal (always hello_world)
           (always hello_world) (at_id "1") one_student 1 (with_ID alice 1)
           hello_world);
    reflexivity.
Defined.
